(** * Screenshot tool: the capture route and the request composer

    A shallow embedding of the two programs of the repository:

    - the capture route ([POST], with its [screenshotSchema]), which drives a
      headless browser through puppeteer;
    - the composer page ([Page], with [handleScreenshot]), which keeps the
      preview and the capture history.

    The browser, the network and the wall clock are outside the code: they
    appear as oracles that answer every call the code makes. *)

From Stdlib Require Import List String Ascii Bool ZArith QArith Lia.
From Stdlib Require Import Strings.Byte Sorting.Sorted.
From Stdlib Require Decimal DecimalString DecimalPos DecimalZ.
Import ListNotations.

Local Open Scope string_scope.
Local Open Scope list_scope.

Set Warnings "-register-all".

(** ** Values exchanged with the JavaScript runtime *)

(** A parsed JSON value.  A JavaScript [number] read from JSON is a finite
    double, hence a rational; comparisons of doubles agree with [Q]. *)
Inductive JsValue : Type :=
| JsNull
| JsBool (b : bool)
| JsNumber (q : Q)
| JsString (s : string)
| JsArray (items : list JsValue)
| JsObject (fields : list (string * JsValue)).

(** What a [catch] clause can receive. *)
Inductive JsError : Type :=
| SyntaxError (message : string)
| ZodError (path : string)
| TimeoutError (message : string)
| Error (message : string).

(** [obj[key]]; [None] is [undefined]. *)
Fixpoint property (key : string) (fields : list (string * JsValue)) : option JsValue :=
  match fields with
  | [] => None
  | (k, v) :: rest => if String.eqb k key then Some v else property key rest
  end.

(** ** Buffer.toString("base64") *)

Module Base64.

Definition alphabet : string :=
  "ABCDEFGHIJKLMNOPQRSTUVWXYZabcdefghijklmnopqrstuvwxyz0123456789+/".

Definition digit (n : N) : ascii :=
  match String.get (N.to_nat n) alphabet with
  | Some c => c
  | None => "="%char
  end.

Fixpoint encode (bytes : list byte) : string :=
  match bytes with
  | [] => EmptyString
  | [a] =>
      let x := Byte.to_N a in
      String (digit (N.shiftr x 2))
        (String (digit (N.shiftl (N.land x 3) 4)) "==")
  | [a; b] =>
      let x := Byte.to_N a in
      let y := Byte.to_N b in
      String (digit (N.shiftr x 2))
        (String (digit (N.lor (N.shiftl (N.land x 3) 4) (N.shiftr y 4)))
           (String (digit (N.shiftl (N.land y 15) 2)) "="))
  | a :: b :: c :: rest =>
      let x := Byte.to_N a in
      let y := Byte.to_N b in
      let z := Byte.to_N c in
      String (digit (N.shiftr x 2))
        (String (digit (N.lor (N.shiftl (N.land x 3) 4) (N.shiftr y 4)))
           (String (digit (N.lor (N.shiftl (N.land y 15) 2) (N.shiftr z 6)))
              (String (digit (N.land z 63)) (encode rest))))
  end.

End Base64.

(** ** The capture route *)

Module Route.

(** *** screenshotSchema *)

Inductive Format : Type := png | jpeg | pdf.

Definition format_name (f : Format) : string :=
  match f with
  | png => "png"
  | jpeg => "jpeg"
  | pdf => "pdf"
  end.

(** The output type of [screenshotSchema.parse]. *)
Record Validated : Type := mkValidated {
  url : string;
  fullSize : bool;
  useProxy : bool;
  noAds : bool;
  width : Q;
  height : Q;
  zoom : Q;
  format : Format;
  quality : Q;
  delay : Q;
  css : option string
}.

(** A field parser takes the property value ([None] when the key is
    absent) and returns the parsed value, or [None] when zod raises an
    issue on that field. *)
Definition z_boolean_default (d : bool) (v : option JsValue) : option bool :=
  match v with
  | None => Some d
  | Some (JsBool b) => Some b
  | Some _ => None
  end.

Definition in_range (lo hi q : Q) : bool := Qle_bool lo q && Qle_bool q hi.

Definition z_number_min_max (lo hi : Q) (v : option JsValue) : option Q :=
  match v with
  | Some (JsNumber q) => if in_range lo hi q then Some q else None
  | _ => None
  end.

Definition z_number_min_max_default (lo hi d : Q) (v : option JsValue) : option Q :=
  match v with
  | None => Some d
  | _ => z_number_min_max lo hi v
  end.

Definition z_enum_format_default (d : Format) (v : option JsValue) : option Format :=
  match v with
  | None => Some d
  | Some (JsString s) =>
      if String.eqb s "png" then Some png
      else if String.eqb s "jpeg" then Some jpeg
      else if String.eqb s "pdf" then Some pdf
      else None
  | Some _ => None
  end.

Definition z_string_optional (v : option JsValue) : option (option string) :=
  match v with
  | None => Some None
  | Some (JsString s) => Some (Some s)
  | Some _ => None
  end.

Definition z_string_url (is_url : string -> bool) (v : option JsValue) : option string :=
  match v with
  | Some (JsString s) => if is_url s then Some s else None
  | _ => None
  end.

(** The first field with an issue names the [ZodError]. *)
Definition field {A : Type} (name : string) (r : option A) : A + JsError :=
  match r with
  | Some a => inl a
  | None => inr (ZodError name)
  end.

Definition and_then {A B : Type} (r : A + JsError) (k : A -> B + JsError) : B + JsError :=
  match r with
  | inl a => k a
  | inr e => inr e
  end.

Notation "'let?' x ':=' r 'in' k" := (and_then r (fun x => k))
  (at level 10, x name, r at level 100, k at level 200).

Section Schema.

(** zod's [.url()] check on a string. *)
Variable is_url : string -> bool.

Definition screenshotSchema_parse (data : JsValue) : Validated + JsError :=
  match data with
  | JsObject o =>
      let? url := field "url" (z_string_url is_url (property "url" o)) in
      let? fullSize := field "fullSize" (z_boolean_default false (property "fullSize" o)) in
      let? useProxy := field "useProxy" (z_boolean_default false (property "useProxy" o)) in
      let? noAds := field "noAds" (z_boolean_default false (property "noAds" o)) in
      let? width := field "width" (z_number_min_max 100 3840 (property "width" o)) in
      let? height := field "height" (z_number_min_max 100 2160 (property "height" o)) in
      let? zoom := field "zoom" (z_number_min_max 10 200 (property "zoom" o)) in
      let? format := field "format" (z_enum_format_default png (property "format" o)) in
      let? quality := field "quality" (z_number_min_max_default 0 100 80 (property "quality" o)) in
      let? delay := field "delay" (z_number_min_max_default 0 10000 0 (property "delay" o)) in
      let? css := field "css" (z_string_optional (property "css" o)) in
      inl (mkValidated url fullSize useProxy noAds width height zoom format quality delay css)
  | _ => inr (ZodError "")
  end.

End Schema.

(** *** The puppeteer calls of the route *)

Inductive RequestAction : Type := abort | continue.

(** [a / b] on numbers.  The division of doubles rounds, and the rounding
    is not modelled: the quotient is kept as its two operands. *)
Inductive Quotient : Type := quotient (dividend divisor : Q).

(** One constructor per call the route makes, with the arguments it
    passes.  [page_evaluate_style css] is the [page.evaluate] call whose
    function appends a [style] element with text [css] to the document
    head. *)
Inductive Call : Type :=
| puppeteer_launch (headless : bool)
| browser_newPage
| page_setViewport (width height : Q) (deviceScaleFactor : Quotient)
| page_setRequestInterception (value : bool)
| page_on (event : string) (handler : string -> RequestAction)
| page_goto (url : string) (waitUntil : string)
| page_evaluate_style (css : string)
| page_waitForTimeout (ms : Q)
| page_pdf (format : string) (printBackground : bool)
| page_screenshot (fullPage : bool) (type : string) (quality : option Q)
| browser_close.

(** How the promise of a call settles.  Only [page.pdf] and
    [page.screenshot] resolve with bytes the route reads. *)
Inductive Outcome : Type :=
| resolved (buffer : list byte)
| rejected (reason : JsError).

Definition Event : Type := Call * Outcome.

(** The browser answers a call knowing the calls made so far. *)
Definition Browser : Type := list Event -> Call -> Outcome.

(** Code that awaits calls and may throw: the events so far go in, the
    value or the thrown error comes out with the events extended. *)
Definition Async (A : Type) : Type := list Event -> (A + JsError) * list Event.

Definition ret {A : Type} (a : A) : Async A := fun tr => (inl a, tr).

Definition throw {A : Type} (e : JsError) : Async A := fun tr => (inr e, tr).

Definition bind {A B : Type} (m : Async A) (k : A -> Async B) : Async B :=
  fun tr =>
    match m tr with
    | (inl a, tr') => k a tr'
    | (inr e, tr') => (inr e, tr')
    end.

Notation "x <- m ;; k" := (bind m (fun x => k))
  (at level 61, m at next level, right associativity).
Notation "m ;;; k" := (bind m (fun _ => k))
  (at level 61, right associativity).

Definition await (browser : Browser) (c : Call) : Async (list byte) :=
  fun tr =>
    match browser tr c with
    | resolved buffer => (inl buffer, tr ++ [(c, resolved buffer)])
    | rejected e => (inr e, tr ++ [(c, rejected e)])
    end.

(** A synchronous registration: it is recorded and cannot fail. *)
Definition register (c : Call) : Async unit :=
  fun tr => (inl tt, tr ++ [(c, resolved [])]).

Definition of_result {A : Type} (r : A + JsError) : Async A :=
  match r with
  | inl a => ret a
  | inr e => throw e
  end.

(** *** POST *)

Record Request : Type := mkRequest {
  (** what [req.json()] resolves with; [None] when the body is not JSON *)
  body : option JsValue
}.

Inductive Body : Type :=
| success_true (screenshot : string)
| success_false (error : string).

Record Response : Type := NextResponse_json {
  payload : Body;
  status : Z
}.

Record Run : Type := mkRun {
  response : Response;
  calls : list Event;
  console_error : list JsError
}.

Definition req_json (req : Request) : Async JsValue :=
  match body req with
  | Some data => ret data
  | None => throw (SyntaxError "Unexpected end of JSON input")
  end.

Definition requestHandler (resourceType : string) : RequestAction :=
  if String.eqb resourceType "advertisement" || String.eqb resourceType "media"
  then abort
  else continue.

(** [if (validated.css)]: an absent or empty string is falsy. *)
Definition truthy (s : option string) : bool :=
  match s with
  | Some (String _ _) => true
  | _ => false
  end.

Definition text (s : option string) : string :=
  match s with
  | Some t => t
  | None => ""
  end.

(** [a > b] on numbers. *)
Definition gt (a b : Q) : bool := negb (Qle_bool a b).

Definition mime (f : Format) : string :=
  match f with
  | pdf => "application/pdf"
  | _ => ("image/" ++ format_name f)%string
  end.

Definition data_uri (f : Format) (screenshot : list byte) : string :=
  ("data:" ++ mime f ++ ";base64," ++ Base64.encode screenshot)%string.

Definition failure_response : Response :=
  NextResponse_json (success_false "Failed to capture screenshot") 500.

Section Handler.

Variable is_url : string -> bool.
Variable browser : Browser.

(** The statements of the [try] block after validation. *)
Definition capture (validated : Validated) : Async Response :=
  await browser (puppeteer_launch true) ;;;
  await browser browser_newPage ;;;
  await browser (page_setViewport (width validated) (height validated)
                   (quotient (zoom validated) 100)) ;;;
  (if noAds validated
   then await browser (page_setRequestInterception true) ;;;
        register (page_on "request" requestHandler)
   else ret tt) ;;;
  await browser (page_goto (url validated) "networkidle0") ;;;
  (if truthy (css validated)
   then await browser (page_evaluate_style (text (css validated))) ;;; ret tt
   else ret tt) ;;;
  (if gt (delay validated) 0
   then await browser (page_waitForTimeout (delay validated)) ;;; ret tt
   else ret tt) ;;;
  screenshot <-
    (match format validated with
     | pdf => await browser (page_pdf "A4" true)
     | f => await browser
              (page_screenshot (fullSize validated) (format_name f)
                 (match f with jpeg => Some (quality validated) | _ => None end))
     end) ;;
  await browser browser_close ;;;
  ret (NextResponse_json (success_true (data_uri (format validated) screenshot)) 200).

(** The whole [try] block. *)
Definition POST_try (req : Request) : Async Response :=
  data <- req_json req ;;
  validated <- of_result (screenshotSchema_parse is_url data) ;;
  capture validated.

(** [try { ... } catch (error) { console.error(...); return ... }] *)
Definition POST (req : Request) : Run :=
  match POST_try req [] with
  | (inl r, tr) => mkRun r tr []
  | (inr error, tr) => mkRun failure_response tr [error]
  end.

End Handler.

(** *** Sample requests and browsers *)

(** A stand-in for zod's URL check: an http or https scheme. *)
Definition has_http_scheme (s : string) : bool :=
  String.prefix "http://" s || String.prefix "https://" s.

Definition example_fields : list (string * JsValue) :=
  [("url", JsString "https://example.com");
   ("width", JsNumber 1280); ("height", JsNumber 720); ("zoom", JsNumber 100)].

Definition example_request : Request :=
  mkRequest (Some (JsObject example_fields)).

(** Every call resolves; captures resolve with three bytes. *)
Definition cooperative : Browser :=
  fun _ c =>
    match c with
    | page_pdf _ _ => resolved [x25; x50; x44]%byte
    | page_screenshot _ _ _ => resolved [x89; x50; x4e]%byte
    | _ => resolved []
    end.

(** Navigation fails with [reason]; every other call resolves. *)
Definition failing_navigation (reason : JsError) : Browser :=
  fun tr c =>
    match c with
    | page_goto _ _ => rejected reason
    | _ => cooperative tr c
    end.

Definition name_not_resolved : JsError :=
  Error "net::ERR_NAME_NOT_RESOLVED at https://example.com".

Definition navigation_timeout_exceeded : JsError :=
  TimeoutError "Navigation timeout of 30000 ms exceeded".

(** *** Observations on a run *)

(** A launch that resolved: the request holds a browser. *)
Definition acquires (ev : Event) : bool :=
  match ev with
  | (puppeteer_launch _, resolved _) => true
  | _ => false
  end.

Definition closes (ev : Event) : bool :=
  match ev with
  | (browser_close, _) => true
  | _ => false
  end.

Definition session_acquired (tr : list Event) : bool := existsb acquires tr.

Definition torn_down (tr : list Event) : bool := existsb closes tr.

Definition is_capture (c : Call) : bool :=
  match c with
  | page_pdf _ _ | page_screenshot _ _ _ => true
  | _ => false
  end.

(** A numeric field that is present and outside [lo, hi]. *)
Definition out_of_range (key : string) (lo hi : Q) (o : list (string * JsValue)) : Prop :=
  exists q, property key o = Some (JsNumber q) /\ (q < lo \/ hi < q).

(** The failure kinds the specification names.  The route has no such
    type: its failure payload is one fixed message. *)
Inductive SpecFailureKind : Type :=
| validation_error
| session_start_failure
| navigation_timeout
| navigation_error
| capture_failure
| internal_failure.

(** [v] with another quality, every other field kept. *)
Definition with_quality (q : Q) (v : Validated) : Validated :=
  mkValidated (url v) (fullSize v) (useProxy v) (noAds v) (width v) (height v)
    (zoom v) (format v) q (delay v) (css v).

(** [v] with another useProxy, every other field kept. *)
Definition with_useProxy (b : bool) (v : Validated) : Validated :=
  mkValidated (url v) (fullSize v) b (noAds v) (width v) (height v)
    (zoom v) (format v) (quality v) (delay v) (css v).

(** *** The order of the calls *)

(** The capture call of a request: [page.pdf] for pdf, [page.screenshot]
    otherwise. *)
Definition capture_call (v : Validated) : Call :=
  match format v with
  | pdf => page_pdf "A4" true
  | f => page_screenshot (fullSize v) (format_name f)
           (match f with jpeg => Some (quality v) | _ => None end)
  end.

(** The calls of [capture] in program order, were none of them rejected. *)
Definition plan (v : Validated) : list Call :=
  [puppeteer_launch true; browser_newPage;
   page_setViewport (width v) (height v) (quotient (zoom v) 100)] ++
  (if noAds v
   then [page_setRequestInterception true; page_on "request" requestHandler]
   else []) ++
  [page_goto (url v) "networkidle0"] ++
  (if truthy (css v) then [page_evaluate_style (text (css v))] else []) ++
  (if gt (delay v) 0 then [page_waitForTimeout (delay v)] else []) ++
  [capture_call v; browser_close].

Definition settles (ev : Event) : bool :=
  match ev with
  | (_, resolved _) => true
  | (_, rejected _) => false
  end.

Definition launches (ev : Event) : bool :=
  match ev with
  | (puppeteer_launch _, _) => true
  | _ => false
  end.

Definition intercepts (c : Call) : bool :=
  match c with
  | page_setRequestInterception _ | page_on _ _ => true
  | _ => false
  end.

(** A browser none of whose promises is rejected. *)
Definition never_rejects (browser : Browser) : Prop :=
  forall tr c, exists buffer, browser tr c = resolved buffer.

(** [typeof x] is boolean, number, string. *)
Definition is_boolean (x : JsValue) : bool :=
  match x with JsBool _ => true | _ => false end.

Definition is_number (x : JsValue) : bool :=
  match x with JsNumber _ => true | _ => false end.

Definition is_string (x : JsValue) : bool :=
  match x with JsString _ => true | _ => false end.

(** A key that is present with a value of the wrong type. *)
Definition ill_typed (key : string) (type : JsValue -> bool)
    (o : list (string * JsValue)) : Prop :=
  exists x, property key o = Some x /\ type x = false.

(** The browser closes nothing; every other call resolves. *)
Definition refusing_to_close : Browser :=
  fun tr c =>
    match c with
    | browser_close => rejected (Error "Protocol error: Target closed")
    | _ => cooperative tr c
    end.

End Route.

(** ** The composer page *)

Module Page.

Record ScreenshotOptions : Type := mkOptions {
  url : string;
  fullSize : bool;
  useProxy : bool;
  noAds : bool;
  width : Q;
  height : Q;
  zoom : Q;
  format : Route.Format;
  quality : Q;
  delay : Q;
  css : string
}.

(** The item's fields [url] and [screenshot] are [item_url] and
    [item_screenshot] here, the options and the state having fields of the
    same names. *)
Record HistoryItem : Type := mkHistoryItem {
  id : string;
  item_url : string;
  timestamp : Z;
  item_screenshot : string
}.

Inductive Toast : Type :=
| toast_error (message : string)
| toast_success (message : string).

(** The React state of [Page], the entry [screenshotHistory] of the
    local storage, and what the page has emitted.  The storage entry is
    kept as the list [JSON.parse] reads from it: [JSON.stringify] of a
    list of items followed by [JSON.parse] gives the list back. *)
Record Client : Type := mkClient {
  isLoading : bool;
  screenshot : option string;
  history : list HistoryItem;
  options : ScreenshotOptions;
  localStorage : option (list HistoryItem);
  toasts : list Toast;
  requests : list ScreenshotOptions;
  console : list JsError
}.

(** How [fetch("/api/screenshot", ...)] followed by [response.json()]
    settles. *)
Inductive FetchOutcome : Type :=
| fetch_rejected (reason : JsError)
| json_rejected (reason : JsError)
| json_data (data : Route.Body).

(** What the page reads from outside during one [handleScreenshot]. *)
Record Env : Type := mkEnv {
  fetch : ScreenshotOptions -> FetchOutcome;
  now_id : Z;
  now_timestamp : Z;
  setItem : list HistoryItem -> option JsError
}.

(** [useState] defaults. *)
Definition default_options : ScreenshotOptions :=
  mkOptions "" false false false 1280 720 100 Route.png 80 0 "".

Definition initial (stored : option (list HistoryItem)) : Client :=
  mkClient false None [] default_options stored [] [] [].

(** State setters and emitters. *)
Definition setIsLoading (b : bool) (c : Client) : Client :=
  mkClient b (screenshot c) (history c) (options c) (localStorage c)
    (toasts c) (requests c) (console c).

Definition setScreenshot (s : string) (c : Client) : Client :=
  mkClient (isLoading c) (Some s) (history c) (options c) (localStorage c)
    (toasts c) (requests c) (console c).

Definition setHistory (h : list HistoryItem) (c : Client) : Client :=
  mkClient (isLoading c) (screenshot c) h (options c) (localStorage c)
    (toasts c) (requests c) (console c).

Definition setOptions (o : ScreenshotOptions) (c : Client) : Client :=
  mkClient (isLoading c) (screenshot c) (history c) o (localStorage c)
    (toasts c) (requests c) (console c).

Definition store (h : list HistoryItem) (c : Client) : Client :=
  mkClient (isLoading c) (screenshot c) (history c) (options c) (Some h)
    (toasts c) (requests c) (console c).

Definition toast (t : Toast) (c : Client) : Client :=
  mkClient (isLoading c) (screenshot c) (history c) (options c) (localStorage c)
    (toasts c ++ [t]) (requests c) (console c).

Definition sent (o : ScreenshotOptions) (c : Client) : Client :=
  mkClient (isLoading c) (screenshot c) (history c) (options c) (localStorage c)
    (toasts c) (requests c ++ [o]) (console c).

Definition console_error (e : JsError) (c : Client) : Client :=
  mkClient (isLoading c) (screenshot c) (history c) (options c) (localStorage c)
    (toasts c) (requests c) (console c ++ [e]).

(** Statements that may throw. *)
Definition Action (A : Type) : Type := Client -> (A + JsError) * Client.

Definition ret {A : Type} (a : A) : Action A := fun c => (inl a, c).

Definition throw {A : Type} (e : JsError) : Action A := fun c => (inr e, c).

Definition bind {A B : Type} (m : Action A) (k : A -> Action B) : Action B :=
  fun c =>
    match m c with
    | (inl a, c') => k a c'
    | (inr e, c') => (inr e, c')
    end.

Definition does (f : Client -> Client) : Action unit := fun c => (inl tt, f c).

Definition reads {A : Type} (f : Client -> A) : Action A := fun c => (inl (f c), c).

Notation "x <- m ;; k" := (bind m (fun x => k))
  (at level 61, m at next level, right associativity).
Notation "m ;;; k" := (bind m (fun _ => k))
  (at level 61, right associativity).

(** [try { body } catch (error) { handler } finally { final }] where
    neither [handler] nor [final] throws. *)
Definition try_catch_finally (body : Action unit) (handler : JsError -> Client -> Client)
    (final : Client -> Client) (c : Client) : Client :=
  match body c with
  | (inl _, c') => final c'
  | (inr error, c') => final (handler error c')
  end.

(** [Date.now().toString()] *)
Definition toString (n : Z) : string :=
  DecimalString.NilZero.string_of_int (Z.to_int n).

(** [list.slice(start, stop)] for indices within bounds or beyond the end. *)
Definition slice {A : Type} (start stop : nat) (l : list A) : list A :=
  firstn (stop - start) (skipn start l).

(** [await fetch(...)] then [await response.json()]. *)
Definition fetch_json (env : Env) (o : ScreenshotOptions) : Action Route.Body :=
  does (sent o) ;;;
  match fetch env o with
  | fetch_rejected e => throw e
  | json_rejected e => throw e
  | json_data data => ret data
  end.

Definition localStorage_setItem (env : Env) (h : list HistoryItem) : Action unit :=
  match setItem env h with
  | None => does (store h)
  | Some e => throw e
  end.

(** The effect run on mount. *)
Definition mount (c : Client) : Client :=
  match localStorage c with
  | Some savedHistory => setHistory savedHistory c
  | None => c
  end.

Definition handleScreenshot (env : Env) : Client -> Client :=
  try_catch_finally
    (does (setIsLoading true) ;;;
     options <- reads options ;;
     history <- reads history ;;
     if String.eqb (url options) ""
     then does (toast (toast_error "Please enter a URL"))
     else
       data <- fetch_json env options ;;
       match data with
       | Route.success_false error => throw (Error error)
       | Route.success_true shot =>
           does (setScreenshot shot) ;;;
           let newHistoryItem :=
             mkHistoryItem (toString (now_id env)) (url options)
               (now_timestamp env) shot in
           let updatedHistory := newHistoryItem :: slice 0 9 history in
           does (setHistory updatedHistory) ;;;
           localStorage_setItem env updatedHistory ;;;
           does (toast (toast_success "Screenshot captured successfully!"))
       end)
    (fun error c => console_error error (toast (toast_error "Failed to capture screenshot") c))
    (setIsLoading false).

(** What can happen to the page: the mount effect, an edit of the
    options, a click on the capture button. *)
Inductive step : Client -> Client -> Prop :=
| step_mount c : step c (mount c)
| step_options o c : step c (setOptions o c)
| step_capture env c : step c (handleScreenshot env c).

Inductive reachable (c0 : Client) : Client -> Prop :=
| reachable_start : reachable c0 c0
| reachable_step c c' : reachable c0 c -> step c c' -> reachable c0 c'.

(** The cap of the history. *)
Definition capped (h : list HistoryItem) : Prop := (List.length h <= 10)%nat.

Definition storage_capped (c : Client) : Prop :=
  match localStorage c with
  | Some h => capped h
  | None => True
  end.

(** Sample data. *)
Definition example_item (n : Z) : HistoryItem :=
  mkHistoryItem (toString n) "https://example.com" n "data:image/png;base64,iVBO".

Definition example_env : Env :=
  mkEnv (fun _ => json_data (Route.success_true "data:image/png;base64,iVBO"))
    1700000000000 1700000000000 (fun _ => None).

Definition example_options : ScreenshotOptions :=
  mkOptions "https://example.com" false false false 1280 720 100 Route.png 80 0 "".

(** A capture goes through: a URL was typed and the endpoint answers
    with a success payload. *)
Definition succeeds (env : Env) (c : Client) : Prop :=
  url (options c) <> "" /\
  exists shot, fetch env (options c) = json_data (Route.success_true shot).

Definition ten_items : list HistoryItem :=
  map example_item [10; 9; 8; 7; 6; 5; 4; 3; 2; 1]%Z.

Definition eleven_items : list HistoryItem :=
  map example_item [11; 10; 9; 8; 7; 6; 5; 4; 3; 2; 1]%Z.

(** *** Sharing, downloading, previewing *)





(** *** The resolution menu *)

(** [s.split(sep)] for a separator of one character. *)
Fixpoint split (sep : ascii) (s : string) : list string :=
  match s with
  | "" => [""]
  | String a rest =>
      if Ascii.eqb a sep then "" :: split sep rest
      else match split sep rest with
           | first :: others => String a first :: others
           | [] => [String a ""]
           end
  end.

(** The value of the menu: the template [`${width}x${height}`] on two
    integers. *)
Definition resolution_value (w h : Z) : string :=
  (toString w ++ "x" ++ toString h)%string.

Definition with_resolution (w h : Q) (o : ScreenshotOptions) : ScreenshotOptions :=
  mkOptions (url o) (fullSize o) (useProxy o) (noAds o) w h (zoom o) (format o)
    (quality o) (delay o) (css o).


Section Resolution.

(** JavaScript's [Number] on a string; [None] is NaN. *)
Variable Number : string -> option Q.

(** [handleResolutionChange]; [None] when width or height would be NaN or
    undefined, which the options here cannot hold. *)
Definition handleResolutionChange (value : string) (c : Client) : option Client :=
  match map Number (split "x" value) with
  | Some width :: Some height :: _ =>
      Some (setOptions (with_resolution width height (options c)) c)
  | _ => None
  end.

End Resolution.

(** [Number] reads the decimal digits of an integer that a double holds
    exactly. *)
Definition reads_integers (Number : string -> option Q) : Prop :=
  forall n : Z, (0 <= n < 2 ^ 53)%Z -> Number (toString n) = Some (inject_Z n).

(** A reader of signed decimal digits, NaN on anything else. *)
Definition decimal_Number (s : string) : option Q :=
  option_map (fun d => inject_Z (Z.of_int d)) (DecimalString.NilZero.int_of_string s).

(** The timestamps of a history, first entry first. *)
Definition timestamps (h : list HistoryItem) : list Z := map timestamp h.

(** The entry a capture puts in front of the history. *)
Definition new_item (env : Env) (c : Client) (shot : string) : HistoryItem :=
  mkHistoryItem (toString (now_id env)) (url (options c)) (now_timestamp env) shot.

Definition failing_env : Env :=
  mkEnv (fun _ => json_data (Route.success_false "Failed to capture screenshot"))
    1700000000000 1700000000000 (fun _ => None).

Definition full_storage_env : Env :=
  mkEnv (fun _ => json_data (Route.success_true "data:image/png;base64,iVBO"))
    1700000000000 1700000000000 (fun _ => Some (Error "QuotaExceededError")).


(** No character of [s] is [sep]. *)
Fixpoint free_of (sep : ascii) (s : string) : bool :=
  match s with
  | "" => true
  | String a rest => negb (Ascii.eqb a sep) && free_of sep rest
  end.

End Page.

(** ** The page talking to the route *)

Module Wire.

(** [JSON.stringify(options)] as [req.json()] reads it back. *)
Definition JSON_of_options (o : Page.ScreenshotOptions) : JsValue :=
  JsObject
    [("url", JsString (Page.url o));
     ("fullSize", JsBool (Page.fullSize o));
     ("useProxy", JsBool (Page.useProxy o));
     ("noAds", JsBool (Page.noAds o));
     ("width", JsNumber (Page.width o));
     ("height", JsNumber (Page.height o));
     ("zoom", JsNumber (Page.zoom o));
     ("format", JsString (Route.format_name (Page.format o)));
     ("quality", JsNumber (Page.quality o));
     ("delay", JsNumber (Page.delay o));
     ("css", JsString (Page.css o))].

(** What the route makes of the options. *)
Definition validated_of (o : Page.ScreenshotOptions) : Route.Validated :=
  Route.mkValidated (Page.url o) (Page.fullSize o) (Page.useProxy o) (Page.noAds o)
    (Page.width o) (Page.height o) (Page.zoom o) (Page.format o) (Page.quality o)
    (Page.delay o) (Some (Page.css o)).

(** The options the route accepts. *)
Definition acceptable (is_url : string -> bool) (o : Page.ScreenshotOptions) : Prop :=
  is_url (Page.url o) = true /\
  100 <= Page.width o /\ Page.width o <= 3840 /\
  100 <= Page.height o /\ Page.height o <= 2160 /\
  10 <= Page.zoom o /\ Page.zoom o <= 200 /\
  0 <= Page.quality o /\ Page.quality o <= 100 /\
  0 <= Page.delay o /\ Page.delay o <= 10000.

(** The run of the route on the page's request. *)
Definition served (is_url : string -> bool) (browser : Route.Browser)
    (o : Page.ScreenshotOptions) : Route.Run :=
  Route.POST is_url browser (Route.mkRequest (Some (JSON_of_options o))).

(** [fetch] answered by the route: the body of the response reaches
    [response.json()] whatever the status. *)
Definition env_of (is_url : string -> bool) (browser : Route.Browser)
    (now_id now_timestamp : Z) (setItem : list Page.HistoryItem -> option JsError)
    : Page.Env :=
  Page.mkEnv
    (fun o => Page.json_data (Route.payload (Route.response (served is_url browser o))))
    now_id now_timestamp setItem.

End Wire.

(** ** Facts about the capture route *)

Module RouteFacts.

Import Route.

Example encode_Man : Base64.encode [x4d; x61; x6e]%byte = "TWFu".
Proof. reflexivity. Qed.

Example encode_Ma : Base64.encode [x4d; x61]%byte = "TWE=".
Proof. reflexivity. Qed.

Example encode_M : Base64.encode [x4d]%byte = "TQ==".
Proof. reflexivity. Qed.

(** *** Validation *)

Lemma in_range_bounds lo hi q : in_range lo hi q = true -> lo <= q /\ q <= hi.
Proof.
  unfold in_range. intros H. apply andb_prop in H as [H1 H2].
  split; apply Qle_bool_iff; assumption.
Qed.

Lemma min_max_bounds lo hi v q :
  z_number_min_max lo hi v = Some q -> v = Some (JsNumber q) /\ lo <= q /\ q <= hi.
Proof.
  unfold z_number_min_max. destruct v as [[]|]; try discriminate.
  destruct (in_range lo hi q0) eqn:R; try discriminate.
  intros [= ->]. split; [reflexivity | now apply in_range_bounds].
Qed.

Lemma min_max_default_bounds lo hi d v q :
  z_number_min_max_default lo hi d v = Some q ->
  (v = None /\ q = d) \/ (v = Some (JsNumber q) /\ lo <= q /\ q <= hi).
Proof.
  unfold z_number_min_max_default. destruct v as [j|].
  - intros H. right. now apply min_max_bounds.
  - intros [= <-]. now left.
Qed.

Lemma out_of_range_not_within key lo hi o q :
  out_of_range key lo hi o -> property key o = Some (JsNumber q) ->
  lo <= q -> q <= hi -> False.
Proof.
  intros (q' & Hq' & Hout) Hq Hlo Hhi.
  rewrite Hq in Hq'. injection Hq' as <-.
  destruct Hout as [Hout | Hout].
  - exact (Qlt_not_le _ _ Hout Hlo).
  - exact (Qlt_not_le _ _ Hout Hhi).
Qed.

Ltac split_fields :=
  repeat match goal with
    | |- context [field ?n ?r] =>
        let E := fresh "E" in destruct r eqn:E; cbn [field and_then]; try discriminate
    end.

(** What a successful parse says about each field of the object. *)
Lemma parse_fields is_url data v :
  screenshotSchema_parse is_url data = inl v ->
  exists o, data = JsObject o /\
    z_string_url is_url (property "url" o) = Some (url v) /\
    z_boolean_default false (property "fullSize" o) = Some (fullSize v) /\
    z_boolean_default false (property "useProxy" o) = Some (useProxy v) /\
    z_boolean_default false (property "noAds" o) = Some (noAds v) /\
    z_number_min_max 100 3840 (property "width" o) = Some (width v) /\
    z_number_min_max 100 2160 (property "height" o) = Some (height v) /\
    z_number_min_max 10 200 (property "zoom" o) = Some (zoom v) /\
    z_enum_format_default png (property "format" o) = Some (format v) /\
    z_number_min_max_default 0 100 80 (property "quality" o) = Some (quality v) /\
    z_number_min_max_default 0 10000 0 (property "delay" o) = Some (delay v) /\
    z_string_optional (property "css" o) = Some (css v).
Proof.
  destruct data as [| | | | |o]; try discriminate.
  unfold screenshotSchema_parse. intros H. exists o. split; [reflexivity|].
  revert H. split_fields. intros [= <-]. cbn. repeat split; reflexivity.
Qed.

Lemma out_of_range_rejected is_url o :
  out_of_range "width" 100 3840 o \/ out_of_range "height" 100 2160 o \/
  out_of_range "zoom" 10 200 o \/ out_of_range "quality" 0 100 o ->
  exists e, screenshotSchema_parse is_url (JsObject o) = inr e.
Proof.
  intros Hout.
  destruct (screenshotSchema_parse is_url (JsObject o)) as [v|e] eqn:P;
    [exfalso | now exists e].
  apply parse_fields in P as (o' & [= <-] & _ & _ & _ & _ & Hw & Hh & Hz & _ & Hq & _).
  apply min_max_bounds in Hw as (Hw & ? & ?).
  apply min_max_bounds in Hh as (Hh & ? & ?).
  apply min_max_bounds in Hz as (Hz & ? & ?).
  destruct Hout as [Out | [Out | [Out | Out]]].
  - eapply out_of_range_not_within; eauto.
  - eapply out_of_range_not_within; eauto.
  - eapply out_of_range_not_within; eauto.
  - apply min_max_default_bounds in Hq as [[Hq _] | (Hq & ? & ?)].
    + destruct Out as (q & Hq' & _). congruence.
    + eapply out_of_range_not_within; eauto.
Qed.

(** A request that fails validation makes no browser call at all. *)
Lemma rejected_before_browser is_url browser data e :
  screenshotSchema_parse is_url data = inr e ->
  POST is_url browser (mkRequest (Some data)) = mkRun failure_response [] [e].
Proof.
  intros P. unfold POST, POST_try, req_json, bind, ret. cbn. rewrite P. reflexivity.
Qed.

(** *** Stepping through the calls of [capture] *)

Lemma POST_valid is_url browser data v :
  screenshotSchema_parse is_url data = inl v ->
  POST is_url browser (mkRequest (Some data)) =
  match capture browser v [] with
  | (inl r, tr) => mkRun r tr []
  | (inr error, tr) => mkRun failure_response tr [error]
  end.
Proof.
  intros P. unfold POST, POST_try, req_json, bind, ret. cbn. rewrite P. reflexivity.
Qed.

(** Case analysis on the three conditionals of [capture] and on the
    format, leaving a chain of calls to the browser. *)
Ltac open_capture v :=
  destruct v as [u fs up na w h z f q d c]; cbn [url fullSize useProxy noAds width
    height zoom format quality delay css] in *;
  unfold capture; cbn [url fullSize useProxy noAds width height zoom format quality
    delay css];
  destruct na; destruct (truthy c); destruct (gt d 0); destruct f;
  unfold bind, await, register, ret; cbn [app].

(** The next call of the chain: only the outermost one mentions no
    bound buffer, so the browser is asked in program order. *)
Ltac next_call browser :=
  match goal with
  | |- context [browser ?tr ?c] =>
      let O := fresh "O" in destruct (browser tr c) eqn:O; cbn [app fst snd]
  end.

(** C4 (amended): every error thrown inside the try block, whatever its
    cause, is caught and answered with the one fixed failure response
    (success false, the message Failed to capture screenshot, status 500)
    after being logged; a response built by the try block is a success
    response with status 200.  No error leaves POST. *)
Theorem every_failure_is_the_fixed_response is_url browser req :
  match POST_try is_url browser req [] with
  | (inl r, tr) =>
      POST is_url browser req = mkRun r tr [] /\
      exists shot, r = NextResponse_json (success_true shot) 200
  | (inr error, tr) =>
      POST is_url browser req = mkRun failure_response tr [error]
  end.
Proof.
  unfold POST.
  destruct (POST_try is_url browser req []) as [[r|e] tr] eqn:T; [|reflexivity].
  split; [reflexivity|].
  revert T. unfold POST_try, req_json.
  destruct (body req) as [data|]; [|discriminate].
  unfold bind at 1. unfold ret at 1. unfold bind at 1.
  destruct (screenshotSchema_parse is_url data) as [v|e]; [|discriminate].
  cbn [of_result]. unfold ret at 1.
  open_capture v; repeat next_call browser; intros [= <- <-]; eexists; reflexivity.
Qed.

(** Locating a navigation event in an explicit list of events. *)
Ltac locate_goto H :=
  repeat match type of H with
    | _ :: _ = ?pre ++ _ :: _ =>
        destruct pre as [|? pre]; cbn [app] in H;
        [ try (injection H as H ?; try discriminate H)
        | injection H as ? H; subst ]
    | [] = ?pre ++ _ :: _ => destruct pre; discriminate H
    end.

Lemma requestHandler_abort t :
  requestHandler t = abort <-> t = "advertisement" \/ t = "media".
Proof.
  unfold requestHandler.
  destruct (String.eqb_spec t "advertisement") as [->|Na]; cbn.
  - split; auto.
  - destruct (String.eqb_spec t "media") as [->|Nm]; cbn.
    + split; auto.
    + split; [discriminate | intros [?|?]; contradiction].
Qed.

Lemma requestHandler_continue t :
  requestHandler t = continue <-> t <> "advertisement" /\ t <> "media".
Proof.
  unfold requestHandler.
  destruct (String.eqb_spec t "advertisement") as [->|Na]; cbn.
  - split; [discriminate | intros [? _]; contradiction].
  - destruct (String.eqb_spec t "media") as [->|Nm]; cbn.
    + split; [discriminate | intros [_ ?]; contradiction].
    + split; auto.
Qed.

(** C3: for a valid request with noAds set, whenever the run reaches
    page.goto, the two events just before it are the resolved
    setRequestInterception(true) and the registration of the request
    handler; that handler aborts exactly the requests whose resource type
    is advertisement or media and lets every other request continue with
    no overrides. *)
Theorem filter_installed_before_navigation is_url browser data v :
  screenshotSchema_parse is_url data = inl v ->
  noAds v = true ->
  (forall pre post u w o,
      calls (POST is_url browser (mkRequest (Some data))) =
        pre ++ (page_goto u w, o) :: post ->
      exists pre' b,
        pre = pre' ++ [(page_setRequestInterception true, resolved b);
                       (page_on "request" requestHandler, resolved [])]) /\
  (forall t, requestHandler t = abort <-> t = "advertisement" \/ t = "media") /\
  (forall t, requestHandler t = continue <-> t <> "advertisement" /\ t <> "media").
Proof.
  intros P Ads.
  split; [| split; [exact requestHandler_abort | exact requestHandler_continue]].
  intros pre post u' w' o. rewrite (POST_valid _ _ _ _ P).
  open_capture v; try discriminate Ads;
    repeat next_call browser; cbn [calls]; intros E; locate_goto E;
    eexists [_; _; _], _; reflexivity.
Qed.

Lemma filter_installed_before_navigation_witness :
  let data := JsObject (("noAds", JsBool true) :: example_fields) in
  noAds (mkValidated "https://example.com" false false true 1280 720 100 png 80 0 None)
    = true /\
  exists pre b,
    calls (POST has_http_scheme cooperative (mkRequest (Some data))) =
      (pre ++ [(page_setRequestInterception true, resolved b);
               (page_on "request" requestHandler, resolved [])]) ++
      [(page_goto "https://example.com" "networkidle0", resolved []);
       (page_screenshot false "png" None, resolved [x89; x50; x4e]%byte);
       (browser_close, resolved [])].
Proof.
  intros data. split; [reflexivity|].
  destruct (filter_installed_before_navigation has_http_scheme cooperative data
              (mkValidated "https://example.com" false false true 1280 720 100 png 80 0 None)
              eq_refl eq_refl) as [Before _].
  destruct (Before
              [(puppeteer_launch true, resolved []); (browser_newPage, resolved []);
               (page_setViewport 1280 720 (quotient 100 100), resolved []);
               (page_setRequestInterception true, resolved []);
               (page_on "request" requestHandler, resolved [])]
              [(page_screenshot false "png" None, resolved [x89; x50; x4e]%byte);
               (browser_close, resolved [])]
              "https://example.com" "networkidle0" (resolved []) eq_refl)
    as (pre & b & E).
  exists pre, b. rewrite <- E. reflexivity.
Defined.

(** C6: for a valid request whose format is pdf, the only capture call a
    run can contain is page.pdf with the fixed paper format A4 and
    printBackground true (the width and height of the request are not
    among its arguments, and page.screenshot is never called); a success
    response carries the bytes that call resolved with, base64-encoded
    behind the prefix data:application/pdf. *)
Theorem pdf_capture_is_fixed_A4 is_url browser data v :
  screenshotSchema_parse is_url data = inl v ->
  format v = pdf ->
  (forall c o,
      In (c, o) (calls (POST is_url browser (mkRequest (Some data)))) ->
      is_capture c = true -> c = page_pdf "A4" true) /\
  (forall shot,
      payload (response (POST is_url browser (mkRequest (Some data)))) =
        success_true shot ->
      exists buffer,
        In (page_pdf "A4" true, resolved buffer)
           (calls (POST is_url browser (mkRequest (Some data)))) /\
        shot = ("data:application/pdf;base64," ++ Base64.encode buffer)%string).
Proof.
  intros P F. rewrite (POST_valid _ _ _ _ P).
  split.
  - intros c' o.
    open_capture v; try discriminate F; repeat next_call browser;
      cbn [calls In]; intros I C;
      repeat match goal with
        | H : _ \/ _ |- _ => destruct H as [H | H]
        | H : False |- _ => contradiction
        | H : (_, _) = (_, _) |- _ => injection H as <- <-
        end;
      solve [reflexivity | discriminate C].
  - intros shot.
    open_capture v; try discriminate F; repeat next_call browser;
      cbn [response payload calls]; intros S; try discriminate S;
      injection S as <-;
      eexists; (split; [cbn [In]; tauto | reflexivity]).
Qed.

Lemma pdf_capture_is_fixed_A4_witness :
  let data := JsObject (("format", JsString "pdf") :: example_fields) in
  let run := POST has_http_scheme cooperative (mkRequest (Some data)) in
  (forall c o, In (c, o) (calls run) -> is_capture c = true -> c = page_pdf "A4" true) /\
  exists buffer,
    In (page_pdf "A4" true, resolved buffer) (calls run) /\
    payload (response run) =
      success_true ("data:application/pdf;base64," ++ Base64.encode buffer)%string.
Proof.
  intros data run.
  destruct (pdf_capture_is_fixed_A4 has_http_scheme cooperative data
              (mkValidated "https://example.com" false false false 1280 720 100 pdf 80 0 None)
              eq_refl eq_refl) as [Only Tagged].
  split; [exact Only|].
  destruct (Tagged "data:application/pdf;base64,JVBE" eq_refl) as (buffer & I & E).
  exists buffer. split; [exact I|]. rewrite <- E. reflexivity.
Defined.

(** C5: two valid requests with format png that differ only in quality
    make the same browser calls and, the browser answering alike, get
    the same response, bytes included. *)
Theorem png_ignores_quality is_url browser data1 data2 v1 v2 :
  screenshotSchema_parse is_url data1 = inl v1 ->
  screenshotSchema_parse is_url data2 = inl v2 ->
  format v1 = png ->
  v2 = with_quality (quality v2) v1 ->
  POST is_url browser (mkRequest (Some data1)) =
  POST is_url browser (mkRequest (Some data2)).
Proof.
  intros P1 P2 F E.
  rewrite (POST_valid _ _ _ _ P1), (POST_valid _ _ _ _ P2).
  rewrite E. destruct v1 as [u fs up na w h z f q d c]. cbn in F. subst f.
  reflexivity.
Qed.

Lemma png_ignores_quality_witness :
  POST has_http_scheme cooperative
    (mkRequest (Some (JsObject (("quality", JsNumber 5) :: example_fields)))) =
  POST has_http_scheme cooperative
    (mkRequest (Some (JsObject (("quality", JsNumber 95) :: example_fields)))).
Proof.
  apply (png_ignores_quality has_http_scheme cooperative _ _
           (mkValidated "https://example.com" false false false 1280 720 100 png 5 0 None)
           (mkValidated "https://example.com" false false false 1280 720 100 png 95 0 None));
    reflexivity.
Defined.

(** C8: useProxy is checked by the schema (a value that is present must
    be a boolean) and then never read: two valid requests that differ
    only in useProxy make the same browser calls and get the same
    response. *)
Theorem useProxy_is_never_read is_url browser data1 data2 v1 v2 :
  screenshotSchema_parse is_url data1 = inl v1 ->
  screenshotSchema_parse is_url data2 = inl v2 ->
  v2 = with_useProxy (useProxy v2) v1 ->
  (exists o1, data1 = JsObject o1 /\
     forall x, property "useProxy" o1 = Some x -> x = JsBool (useProxy v1)) /\
  POST is_url browser (mkRequest (Some data1)) =
  POST is_url browser (mkRequest (Some data2)).
Proof.
  intros P1 P2 E. split.
  - apply parse_fields in P1 as (o1 & -> & _ & _ & Up & _).
    exists o1. split; [reflexivity|]. intros x Hx. rewrite Hx in Up.
    destruct x; try discriminate Up. injection Up as ->. reflexivity.
  - rewrite (POST_valid _ _ _ _ P1), (POST_valid _ _ _ _ P2).
    rewrite E. destruct v1. reflexivity.
Qed.

Lemma useProxy_is_never_read_witness :
  POST has_http_scheme cooperative
    (mkRequest (Some (JsObject (("useProxy", JsBool true) :: example_fields)))) =
  POST has_http_scheme cooperative
    (mkRequest (Some (JsObject (("useProxy", JsBool false) :: example_fields)))).
Proof.
  apply (useProxy_is_never_read has_http_scheme cooperative _ _
           (mkValidated "https://example.com" false true false 1280 720 100 png 80 0 None)
           (mkValidated "https://example.com" false false false 1280 720 100 png 80 0 None));
    reflexivity.
Defined.

(** C1: the browser is closed on the success path only.  On a valid
    request whose navigation is rejected, the launch has resolved, the
    catch clause answers with the failure response, and browser.close is
    never called. *)
Theorem session_leaks_when_navigation_fails :
  let run := POST has_http_scheme (failing_navigation name_not_resolved) example_request in
  calls run =
    [(puppeteer_launch true, resolved []);
     (browser_newPage, resolved []);
     (page_setViewport 1280 720 (quotient 100 100), resolved []);
     (page_goto "https://example.com" "networkidle0", rejected name_not_resolved)] /\
  response run = failure_response /\
  session_acquired (calls run) = true /\
  torn_down (calls run) = false.
Proof. cbv zeta. repeat split. Qed.

(** The same on every failure path: once a call other than browser.close
    has been rejected, the run contains no browser.close. *)
Lemma rejected_call_skips_close is_url browser data v call reason :
  screenshotSchema_parse is_url data = inl v ->
  In (call, rejected reason) (calls (POST is_url browser (mkRequest (Some data)))) ->
  call <> browser_close ->
  torn_down (calls (POST is_url browser (mkRequest (Some data)))) = false.
Proof.
  intros P. rewrite (POST_valid _ _ _ _ P).
  open_capture v; repeat next_call browser; cbn [calls In]; intros I N;
    repeat match goal with
      | H : _ \/ _ |- _ => destruct H as [H | H]
      | H : False |- _ => contradiction
      | H : (_, _) = (_, _) |- _ => injection H as <- ?; try discriminate
      end;
    solve [reflexivity | contradiction N; reflexivity].
Qed.

(** On the success path the session is closed, last. *)
Lemma session_closed_on_success :
  let run := POST has_http_scheme cooperative example_request in
  payload (response run) = success_true "data:image/png;base64,iVBO" /\
  session_acquired (calls run) = true /\
  torn_down (calls run) = true /\
  last (calls run) (browser_close, rejected name_not_resolved) =
    (browser_close, resolved []).
Proof. cbv zeta. repeat split. Qed.

(** C2 (amended): a request whose width, height, zoom or quality is a
    number outside its range is answered with the fixed failure response
    (success false, the message Failed to capture screenshot, status
    500), and the run makes no browser call at all. *)
Theorem out_of_range_never_launches is_url browser o :
  out_of_range "width" 100 3840 o \/ out_of_range "height" 100 2160 o \/
  out_of_range "zoom" 10 200 o \/ out_of_range "quality" 0 100 o ->
  response (POST is_url browser (mkRequest (Some (JsObject o)))) = failure_response /\
  calls (POST is_url browser (mkRequest (Some (JsObject o)))) = [].
Proof.
  intros Out. destruct (out_of_range_rejected is_url o Out) as [e P].
  rewrite (rejected_before_browser _ _ _ _ P). split; reflexivity.
Qed.

Lemma out_of_range_never_launches_witness :
  let o := ("width", JsNumber 50) :: example_fields in
  out_of_range "width" 100 3840 o /\
  response (POST has_http_scheme cooperative (mkRequest (Some (JsObject o)))) =
    failure_response /\
  calls (POST has_http_scheme cooperative (mkRequest (Some (JsObject o)))) = [].
Proof.
  intros o.
  assert (Out : out_of_range "width" 100 3840 o)
    by (exists 50; split; [reflexivity | left; reflexivity]).
  split; [exact Out|].
  apply (out_of_range_never_launches has_http_scheme cooperative o). left. exact Out.
Defined.

(** C2 as stated fails at width 50: the response is the very response a
    valid request gets when navigation fails, so no reading of responses
    gives it the kind validation-error and the other the kind
    navigation-error. *)
Lemma out_of_range_width_has_no_kind :
  let invalid :=
    response (POST has_http_scheme cooperative
                (mkRequest (Some (JsObject (("width", JsNumber 50) :: example_fields))))) in
  let unreachable :=
    response (POST has_http_scheme (failing_navigation name_not_resolved) example_request) in
  invalid = NextResponse_json (success_false "Failed to capture screenshot") 500 /\
  ~ exists kind_of : Response -> SpecFailureKind,
      kind_of invalid = validation_error /\ kind_of unreachable = navigation_error.
Proof.
  cbv zeta. split; [reflexivity|].
  intros (kind_of & Hv & Hn).
  change (kind_of failure_response = validation_error) in Hv.
  change (kind_of failure_response = navigation_error) in Hn.
  congruence.
Qed.

(** C4 as stated fails: a navigation timeout and a name-resolution error
    get the same response, so no reading of the result tells a
    navigation-timeout from a navigation-error. *)
Lemma navigation_timeout_not_distinguished :
  let timed_out :=
    response (POST has_http_scheme (failing_navigation navigation_timeout_exceeded)
                example_request) in
  let unreachable :=
    response (POST has_http_scheme (failing_navigation name_not_resolved) example_request) in
  timed_out = unreachable /\
  ~ exists kind_of : Response -> SpecFailureKind,
      kind_of timed_out = navigation_timeout /\ kind_of unreachable = navigation_error.
Proof.
  cbv zeta. split; [reflexivity|].
  intros (kind_of & Ht & Hn).
  change (kind_of failure_response = navigation_timeout) in Ht.
  change (kind_of failure_response = navigation_error) in Hn.
  congruence.
Qed.

End RouteFacts.

(** ** Facts about the composer page *)

Module PageFacts.

Import Page.

Ltac run_handler env c :=
  unfold handleScreenshot, try_catch_finally, fetch_json, localStorage_setItem,
    bind, does, reads, ret, throw;
  cbn [options history setIsLoading];
  destruct (String.eqb_spec (url (options c)) "") as [U|U];
  [| destruct (fetch env (options c)) as [e|e|[shot|err]] eqn:F;
     [| | match goal with
          | |- context [setItem env ?h] => destruct (setItem env h) eqn:W
          end |]];
  cbn -[slice].

Lemma slice_0 {A : Type} (n : nat) (l : list A) : slice 0 n l = firstn n l.
Proof. unfold slice. rewrite Nat.sub_0_r. reflexivity. Qed.

Lemma append_capped (item : HistoryItem) (h : list HistoryItem) :
  capped (item :: slice 0 9 h).
Proof.
  unfold capped. rewrite slice_0. cbn [List.length].
  pose proof (firstn_le_length 9 h). lia.
Qed.

Lemma append_evicts_oldest (item : HistoryItem) (h : list HistoryItem) :
  List.length h = 10%nat -> item :: slice 0 9 h = item :: removelast h.
Proof.
  intros L. rewrite slice_0, removelast_firstn_len, L. reflexivity.
Qed.

(** The two things a click can do to the history. *)
Lemma handleScreenshot_history env c :
  (history (handleScreenshot env c) = history c /\
   localStorage (handleScreenshot env c) = localStorage c) \/
  (exists item,
      history (handleScreenshot env c) = item :: slice 0 9 (history c) /\
      (localStorage (handleScreenshot env c) = Some (item :: slice 0 9 (history c)) \/
       localStorage (handleScreenshot env c) = localStorage c)).
Proof.
  run_handler env c; try (left; split; reflexivity);
    right; eexists; split; try reflexivity; [right | left]; reflexivity.
Qed.

Lemma step_keeps_cap c c' :
  step c c' -> capped (history c) -> storage_capped c ->
  capped (history c') /\ storage_capped c'.
Proof.
  intros S Hh Hs. destruct S as [c | o c | env c].
  - unfold mount, storage_capped in *.
    destruct (localStorage c) as [saved|] eqn:L; cbn; rewrite L; split; auto.
  - split; assumption.
  - unfold storage_capped in *.
    destruct (handleScreenshot_history env c) as [[-> ->] | (item & -> & [-> | ->])];
      auto using append_capped.
Qed.

Lemma reachable_keeps_cap c0 c :
  reachable c0 c -> capped (history c0) -> storage_capped c0 ->
  capped (history c) /\ storage_capped c.
Proof.
  induction 1 as [|c c' R IH S]; intros Hh Hs; [split; assumption|].
  destruct (IH Hh Hs) as [Ch Cs]. exact (step_keeps_cap c c' S Ch Cs).
Qed.

(** C7 (amended): on a page whose history and stored list start with at
    most 10 entries, neither ever exceeds 10.  A capture that goes through
    puts the new entry (the current URL, the clock readings, the returned
    artifact) in front of the first 9 old entries, in their order, which
    from 10 entries drops exactly the last, oldest one; that same list is
    what is written to the storage when the write is accepted.  A capture
    that does not go through leaves history and storage as they were. *)
Theorem history_capped_most_recent_first c0 c env :
  capped (history c0) -> storage_capped c0 -> reachable c0 c ->
  capped (history c) /\ storage_capped c /\
  (forall artifact,
      url (options c) <> "" ->
      fetch env (options c) = json_data (Route.success_true artifact) ->
      history (handleScreenshot env c) =
        new_item env c artifact :: slice 0 9 (history c) /\
      capped (history (handleScreenshot env c)) /\
      (List.length (history c) = 10%nat ->
       history (handleScreenshot env c) =
         new_item env c artifact :: removelast (history c)) /\
      (setItem env (new_item env c artifact :: slice 0 9 (history c)) = None ->
       localStorage (handleScreenshot env c) =
         Some (new_item env c artifact :: slice 0 9 (history c)))) /\
  (~ succeeds env c ->
   history (handleScreenshot env c) = history c /\
   localStorage (handleScreenshot env c) = localStorage c).
Proof.
  intros Hh Hs R. destruct (reachable_keeps_cap c0 c R Hh Hs) as [Ch Cs].
  split; [exact Ch|]. split; [exact Cs|]. split.
  - intros artifact Hu Hf. unfold new_item.
    run_handler env c; try contradiction; try discriminate Hf; injection Hf as ->;
      (split; [reflexivity|]); (split; [apply append_capped|]);
      (split; [intros L; apply append_evicts_oldest; exact L|]);
      intros Hw; solve [reflexivity | rewrite Hw in W; discriminate W].
  - intros N. run_handler env c; try (split; reflexivity);
      exfalso; apply N; (split; [assumption | eexists; eassumption]).
Qed.

Lemma history_capped_most_recent_first_witness :
  let c0 := initial (Some ten_items) in
  let c := setOptions example_options (mount c0) in
  history c = ten_items /\
  history (handleScreenshot example_env c) =
    example_item 1700000000000 :: map example_item [10; 9; 8; 7; 6; 5; 4; 3; 2]%Z /\
  localStorage (handleScreenshot example_env c) =
    Some (example_item 1700000000000 :: map example_item [10; 9; 8; 7; 6; 5; 4; 3; 2]%Z).
Proof.
  intros c0 c.
  assert (Hh : capped (history c0)) by (cbv; lia).
  assert (Hs : storage_capped c0) by (cbv; lia).
  assert (R : reachable c0 c).
  { apply reachable_step with (c := mount c0); [|apply step_options].
    apply reachable_step with (c := c0); [apply reachable_start | apply step_mount]. }
  split; [reflexivity|].
  destruct (history_capped_most_recent_first c0 c example_env Hh Hs R)
    as (_ & _ & Through & _).
  destruct (Through "data:image/png;base64,iVBO") as (_ & _ & Evict & Stored).
  - discriminate.
  - reflexivity.
  - split; [rewrite (Evict eq_refl) | rewrite (Stored eq_refl)]; reflexivity.
Defined.

(** C7 as stated fails on a stored list of 11 entries: the mount effect
    alone takes the page from its initial state to a history of 11. *)
Lemma stored_eleven_entries_exceed_the_cap :
  let c0 := initial (Some eleven_items) in
  reachable c0 (mount c0) /\
  List.length (history (mount c0)) = 11%nat /\
  ~ capped (history (mount c0)).
Proof.
  intros c0. split.
  - apply reachable_step with (c := c0); [apply reachable_start | apply step_mount].
  - split; [reflexivity|]. unfold capped. cbn. lia.
Qed.

(** C9: with an empty URL field, handleScreenshot shows the error
    notification Please enter a URL and returns: no request is sent, and
    the preview, the history and the local storage stay as they were. *)
Theorem empty_url_sends_nothing env c :
  url (options c) = "" ->
  toasts (handleScreenshot env c) = toasts c ++ [toast_error "Please enter a URL"] /\
  requests (handleScreenshot env c) = requests c /\
  screenshot (handleScreenshot env c) = screenshot c /\
  history (handleScreenshot env c) = history c /\
  localStorage (handleScreenshot env c) = localStorage c.
Proof.
  intros E. run_handler env c; try contradiction. repeat split.
Qed.

Lemma empty_url_sends_nothing_witness :
  let c := mount (initial (Some ten_items)) in
  url (options c) = "" /\
  toasts (handleScreenshot example_env c) = [toast_error "Please enter a URL"] /\
  requests (handleScreenshot example_env c) = [] /\
  screenshot (handleScreenshot example_env c) = None /\
  history (handleScreenshot example_env c) = ten_items /\
  localStorage (handleScreenshot example_env c) = Some ten_items.
Proof.
  intros c. split; [reflexivity|].
  exact (empty_url_sends_nothing example_env c eq_refl).
Defined.

Lemma succeeds_caps env c : succeeds env c -> capped (history (handleScreenshot env c)).
Proof.
  intros [U' (shot' & F')]. run_handler env c; try contradiction; try congruence;
    apply append_capped.
Qed.

Lemma fails_keeps_history env c :
  ~ succeeds env c -> history (handleScreenshot env c) = history c.
Proof.
  intros N. run_handler env c; try reflexivity;
    exfalso; apply N; (split; [assumption | eexists; eassumption]).
Qed.

(** C10: the mount effect adopts the stored list as it is, whatever its
    length; only a capture that goes through cuts the history down to the
    cap, and a capture that does not go through leaves it as it is. *)
Theorem stored_history_adopted_as_is c saved :
  localStorage c = Some saved ->
  history (mount c) = saved /\
  (forall env c', succeeds env c' -> capped (history (handleScreenshot env c'))) /\
  (forall env c', ~ succeeds env c' -> history (handleScreenshot env c') = history c').
Proof.
  intros L. split.
  - unfold mount. rewrite L. reflexivity.
  - split; [exact succeeds_caps | exact fails_keeps_history].
Qed.

Lemma stored_history_adopted_as_is_witness :
  let c := initial (Some eleven_items) in
  List.length (history (mount c)) = 11%nat /\
  List.length (history (handleScreenshot example_env (mount c))) = 11%nat /\
  List.length (history (handleScreenshot example_env
                          (setOptions example_options (mount c)))) = 10%nat.
Proof.
  intros c.
  destruct (stored_history_adopted_as_is c eleven_items eq_refl) as (Adopted & _ & Kept).
  split; [rewrite Adopted; reflexivity|].
  split; [|reflexivity].
  rewrite (Kept example_env (mount c)); [rewrite Adopted; reflexivity|].
  intros [U _]. apply U. reflexivity.
Defined.

End PageFacts.

(** ** More facts about the capture route *)

Module RouteMore.

Import Route RouteFacts.

(** *** What the schema accepts *)

Lemma z_string_url_some is_url p s :
  z_string_url is_url p = Some s -> p = Some (JsString s) /\ is_url s = true.
Proof.
  unfold z_string_url. destruct p as [[]|]; try discriminate.
  destruct (is_url s0) eqn:U; [|discriminate]. intros [= ->]. split; [reflexivity | exact U].
Qed.

Lemma z_boolean_default_some d p b :
  z_boolean_default d p = Some b -> (p = None /\ b = d) \/ p = Some (JsBool b).
Proof.
  unfold z_boolean_default. destruct p as [[]|]; try discriminate.
  - intros [= ->]. now right.
  - intros [= <-]. now left.
Qed.

Lemma z_enum_format_default_some d p f :
  z_enum_format_default d p = Some f ->
  (p = None /\ f = d) \/ p = Some (JsString (format_name f)).
Proof.
  unfold z_enum_format_default. destruct p as [[]|]; try discriminate.
  - destruct (String.eqb_spec s "png") as [->|_]; [intros [= <-]; now right|].
    destruct (String.eqb_spec s "jpeg") as [->|_]; [intros [= <-]; now right|].
    destruct (String.eqb_spec s "pdf") as [->|_]; [intros [= <-]; now right|].
    discriminate.
  - intros [= <-]. now left.
Qed.

Lemma z_string_optional_some p c :
  z_string_optional p = Some c ->
  (p = None /\ c = None) \/ exists s, p = Some (JsString s) /\ c = Some s.
Proof.
  unfold z_string_optional. destruct p as [[]|]; try discriminate.
  - intros [= <-]. right. now exists s.
  - intros [= <-]. now left.
Qed.

Lemma rejected_run is_url browser data :
  (exists e, screenshotSchema_parse is_url data = inr e) ->
  response (POST is_url browser (mkRequest (Some data))) = failure_response /\
  calls (POST is_url browser (mkRequest (Some data))) = [].
Proof.
  intros [e P]. rewrite (rejected_before_browser _ _ _ _ P). split; reflexivity.
Qed.

Lemma parse_cases is_url data :
  (exists v, screenshotSchema_parse is_url data = inl v) \/
  (exists e, screenshotSchema_parse is_url data = inr e).
Proof.
  destruct (screenshotSchema_parse is_url data) as [v|e]; [left; now exists v | right; now exists e].
Qed.

(** X1: a request that passes the schema comes out with the very values
    it carried, unclamped and uncoerced, each number inside its range and
    the URL accepted by the URL check; quality and delay may be absent and
    are then 80 and 0. *)
Theorem parsed_values_are_the_given_ones_in_range is_url o v :
  screenshotSchema_parse is_url (JsObject o) = inl v ->
  (property "url" o = Some (JsString (url v)) /\ is_url (url v) = true) /\
  (property "width" o = Some (JsNumber (width v)) /\ 100 <= width v /\ width v <= 3840) /\
  (property "height" o = Some (JsNumber (height v)) /\ 100 <= height v /\ height v <= 2160) /\
  (property "zoom" o = Some (JsNumber (zoom v)) /\ 10 <= zoom v /\ zoom v <= 200) /\
  ((property "quality" o = None /\ quality v = 80) \/
   property "quality" o = Some (JsNumber (quality v))) /\
  0 <= quality v /\ quality v <= 100 /\
  ((property "delay" o = None /\ delay v = 0) \/
   property "delay" o = Some (JsNumber (delay v))) /\
  0 <= delay v /\ delay v <= 10000.
Proof.
  intros P.
  apply parse_fields in P as (o' & [= <-] & Hu & _ & _ & _ & Hw & Hh & Hz & _ & Hq & Hd & _).
  apply z_string_url_some in Hu. apply min_max_bounds in Hw, Hh, Hz.
  repeat (split; [tauto|]).
  apply min_max_default_bounds in Hq, Hd.
  destruct Hq as [[Hq ->] | (Hq & ? & ?)], Hd as [[Hd ->] | (Hd & ? & ?)];
    repeat split; auto; discriminate.
Qed.

Lemma parsed_values_are_the_given_ones_in_range_witness :
  let v := mkValidated "https://example.com" false false false 1280 720 100 png 80 0 None in
  100 <= width v /\ width v <= 3840 /\ 100 <= height v /\ height v <= 2160 /\
  10 <= zoom v /\ zoom v <= 200 /\ quality v = 80 /\ delay v = 0.
Proof.
  intros v.
  destruct (parsed_values_are_the_given_ones_in_range has_http_scheme example_fields v eq_refl)
    as (_ & (_ & W1 & W2) & (_ & H1 & H2) & (_ & Z1 & Z2) & _).
  repeat split; assumption.
Defined.

(** X2: every optional field that is absent from the request takes its
    default: false for fullSize, useProxy and noAds, png for format, 80
    for quality, 0 for delay, and no css at all. *)
Theorem absent_fields_take_defaults is_url o v :
  screenshotSchema_parse is_url (JsObject o) = inl v ->
  (property "fullSize" o = None -> fullSize v = false) /\
  (property "useProxy" o = None -> useProxy v = false) /\
  (property "noAds" o = None -> noAds v = false) /\
  (property "format" o = None -> format v = png) /\
  (property "quality" o = None -> quality v = 80) /\
  (property "delay" o = None -> delay v = 0) /\
  (property "css" o = None -> css v = None).
Proof.
  intros P.
  apply parse_fields in P as (o' & [= <-] & _ & Hf & Hp & Ha & _ & _ & _ & Ht & Hq & Hd & Hc).
  repeat split; intros N.
  - rewrite N in Hf. now injection Hf.
  - rewrite N in Hp. now injection Hp.
  - rewrite N in Ha. now injection Ha.
  - rewrite N in Ht. now injection Ht.
  - rewrite N in Hq. now injection Hq.
  - rewrite N in Hd. now injection Hd.
  - rewrite N in Hc. now injection Hc.
Qed.

Lemma absent_fields_take_defaults_witness :
  let v := mkValidated "https://example.com" false false false 1280 720 100 png 80 0 None in
  fullSize v = false /\ useProxy v = false /\ noAds v = false /\ format v = png /\
  quality v = 80 /\ delay v = 0 /\ css v = None.
Proof.
  intros v.
  destruct (absent_fields_take_defaults has_http_scheme example_fields v eq_refl)
    as (F & P & A & T & Q & D & C).
  exact (conj (F eq_refl) (conj (P eq_refl) (conj (A eq_refl) (conj (T eq_refl)
           (conj (Q eq_refl) (conj (D eq_refl) (C eq_refl))))))).
Defined.

(** X3: url, width, height and zoom are all a request needs: with a URL
    that passes the URL check, the three numbers in range and the seven
    other keys absent, the schema accepts and fills in the defaults. *)
Theorem four_fields_suffice is_url o u w h z :
  property "url" o = Some (JsString u) -> is_url u = true ->
  property "width" o = Some (JsNumber w) -> 100 <= w -> w <= 3840 ->
  property "height" o = Some (JsNumber h) -> 100 <= h -> h <= 2160 ->
  property "zoom" o = Some (JsNumber z) -> 10 <= z -> z <= 200 ->
  property "fullSize" o = None -> property "useProxy" o = None ->
  property "noAds" o = None -> property "format" o = None ->
  property "quality" o = None -> property "delay" o = None ->
  property "css" o = None ->
  screenshotSchema_parse is_url (JsObject o) =
    inl (mkValidated u false false false w h z png 80 0 None).
Proof.
  intros Hu U Hw W1 W2 Hh H1 H2 Hz Z1 Z2 Nf Np Na Nt Nq Nd Nc.
  unfold screenshotSchema_parse.
  rewrite Hu, Hw, Hh, Hz, Nf, Np, Na, Nt, Nq, Nd, Nc.
  unfold z_string_url, z_number_min_max, in_range. rewrite U.
  apply Qle_bool_iff in W1, W2, H1, H2, Z1, Z2.
  rewrite W1, W2, H1, H2, Z1, Z2. reflexivity.
Qed.

Lemma four_fields_suffice_witness :
  screenshotSchema_parse has_http_scheme (JsObject example_fields) =
    inl (mkValidated "https://example.com" false false false 1280 720 100 png 80 0 None).
Proof.
  apply (four_fields_suffice has_http_scheme example_fields "https://example.com" 1280 720 100);
    reflexivity || discriminate.
Defined.

Lemma parsed_values_in_range_fields is_url o v :
  screenshotSchema_parse is_url (JsObject o) = inl v ->
  (property "url" o = Some (JsString (url v)) /\ is_url (url v) = true) /\
  (property "width" o = Some (JsNumber (width v)) /\ 100 <= width v /\ width v <= 3840) /\
  (property "height" o = Some (JsNumber (height v)) /\ 100 <= height v /\ height v <= 2160) /\
  (property "zoom" o = Some (JsNumber (zoom v)) /\ 10 <= zoom v /\ zoom v <= 200).
Proof.
  intros P.
  apply parse_fields in P as (o' & [= <-] & Hu & _ & _ & _ & Hw & Hh & Hz & _).
  apply z_string_url_some in Hu. apply min_max_bounds in Hw, Hh, Hz. tauto.
Qed.

(** X4: a request that lacks url, width, height or zoom is answered
    with the fixed failure response before any browser call. *)
Theorem missing_required_field_rejected is_url browser o :
  property "url" o = None \/ property "width" o = None \/
  property "height" o = None \/ property "zoom" o = None ->
  response (POST is_url browser (mkRequest (Some (JsObject o)))) = failure_response /\
  calls (POST is_url browser (mkRequest (Some (JsObject o)))) = [].
Proof.
  intros M. apply rejected_run.
  destruct (parse_cases is_url (JsObject o)) as [[v P] | R]; [exfalso | exact R].
  apply parsed_values_in_range_fields in P as ((Hu & _) & (Hw & _) & (Hh & _) & (Hz & _)).
  destruct M as [M | [M | [M | M]]]; congruence.
Qed.

Lemma missing_required_field_rejected_witness :
  let o := [("url", JsString "https://example.com"); ("width", JsNumber 1280);
            ("height", JsNumber 720)] in
  property "zoom" o = None /\
  response (POST has_http_scheme cooperative (mkRequest (Some (JsObject o)))) =
    failure_response /\
  calls (POST has_http_scheme cooperative (mkRequest (Some (JsObject o)))) = [].
Proof.
  intros o. split; [reflexivity|].
  apply (missing_required_field_rejected has_http_scheme cooperative o).
  right. right. right. reflexivity.
Defined.

(** The value found under a key against what the schema made of it. *)
Ltac clash Hx H B :=
  rewrite Hx in H;
  repeat match type of H with
    | _ \/ _ => destruct H as [H | H]
    | _ /\ _ => destruct H as [H _]
    | exists _, _ => destruct H as [? H]
    end;
  first [discriminate H | injection H as ->; discriminate B].

(** X5: a field that is present with a value of the wrong type (null
    included, also where the schema has a default) is not coerced: the
    request is answered with the fixed failure response before any browser
    call. *)
Theorem ill_typed_field_rejected is_url browser o :
  ill_typed "url" is_string o \/ ill_typed "fullSize" is_boolean o \/
  ill_typed "useProxy" is_boolean o \/ ill_typed "noAds" is_boolean o \/
  ill_typed "width" is_number o \/ ill_typed "height" is_number o \/
  ill_typed "zoom" is_number o \/ ill_typed "format" is_string o \/
  ill_typed "quality" is_number o \/ ill_typed "delay" is_number o \/
  ill_typed "css" is_string o ->
  response (POST is_url browser (mkRequest (Some (JsObject o)))) = failure_response /\
  calls (POST is_url browser (mkRequest (Some (JsObject o)))) = [].
Proof.
  intros T. apply rejected_run.
  destruct (parse_cases is_url (JsObject o)) as [[v P] | R]; [exfalso | exact R].
  apply parse_fields in P
    as (o' & [= <-] & Hu & Hf & Hp & Ha & Hw & Hh & Hz & Ht & Hq & Hd & Hc).
  apply z_string_url_some in Hu as [Hu _].
  apply z_boolean_default_some in Hf, Hp, Ha.
  apply min_max_bounds in Hw as [Hw _], Hh as [Hh _], Hz as [Hz _].
  apply z_enum_format_default_some in Ht.
  apply min_max_default_bounds in Hq, Hd.
  apply z_string_optional_some in Hc.
  destruct T as [T | [T | [T | [T | [T | [T | [T | [T | [T | [T | T]]]]]]]]]];
    destruct T as (x & Hx & B);
    [ clash Hx Hu B | clash Hx Hf B | clash Hx Hp B | clash Hx Ha B | clash Hx Hw B
    | clash Hx Hh B | clash Hx Hz B | clash Hx Ht B | clash Hx Hq B | clash Hx Hd B
    | clash Hx Hc B ].
Qed.

Lemma ill_typed_field_rejected_witness :
  let o := ("quality", JsNull) :: example_fields in
  ill_typed "quality" is_number o /\
  response (POST has_http_scheme cooperative (mkRequest (Some (JsObject o)))) =
    failure_response /\
  calls (POST has_http_scheme cooperative (mkRequest (Some (JsObject o)))) = [].
Proof.
  intros o.
  assert (T : ill_typed "quality" is_number o)
    by (exists JsNull; split; reflexivity).
  split; [exact T|].
  apply (ill_typed_field_rejected has_http_scheme cooperative o). tauto.
Defined.

(** X6: a body that is not JSON, or is JSON but not an object, is
    answered with the fixed failure response before any browser call. *)
Theorem body_must_be_an_object is_url browser req :
  (forall o, body req <> Some (JsObject o)) ->
  response (POST is_url browser req) = failure_response /\
  calls (POST is_url browser req) = [].
Proof.
  intros N. destruct req as [[data|]]; cbn in N.
  - destruct data; try (split; reflexivity). contradiction (N fields). reflexivity.
  - split; reflexivity.
Qed.

Lemma body_must_be_an_object_witness :
  response (POST has_http_scheme cooperative (mkRequest (Some (JsArray [])))) =
    failure_response /\
  calls (POST has_http_scheme cooperative (mkRequest None)) = [].
Proof.
  split.
  - apply (body_must_be_an_object has_http_scheme cooperative (mkRequest (Some (JsArray [])))).
    discriminate.
  - apply (body_must_be_an_object has_http_scheme cooperative (mkRequest None)).
    discriminate.
Defined.

(** X7: a delay below 0 or above 10000 is rejected like the other
    out-of-range numbers: the fixed failure response, and no browser
    call. *)
Theorem delay_out_of_range_rejected is_url browser o :
  out_of_range "delay" 0 10000 o ->
  response (POST is_url browser (mkRequest (Some (JsObject o)))) = failure_response /\
  calls (POST is_url browser (mkRequest (Some (JsObject o)))) = [].
Proof.
  intros Out. apply rejected_run.
  destruct (parse_cases is_url (JsObject o)) as [[v P] | R]; [exfalso | exact R].
  apply parse_fields in P as (o' & [= <-] & _ & _ & _ & _ & _ & _ & _ & _ & _ & Hd & _).
  apply min_max_default_bounds in Hd as [[Hd _] | (Hd & ? & ?)].
  - destruct Out as (q & Hq & _). congruence.
  - eapply out_of_range_not_within; eauto.
Qed.

Lemma delay_out_of_range_rejected_witness :
  let o := ("delay", JsNumber 60000) :: example_fields in
  out_of_range "delay" 0 10000 o /\
  response (POST has_http_scheme cooperative (mkRequest (Some (JsObject o)))) =
    failure_response /\
  calls (POST has_http_scheme cooperative (mkRequest (Some (JsObject o)))) = [].
Proof.
  intros o.
  assert (Out : out_of_range "delay" 0 10000 o)
    by (exists 60000; split; [reflexivity | right; reflexivity]).
  split; [exact Out|].
  exact (delay_out_of_range_rejected has_http_scheme cooperative o Out).
Defined.

(** *** The calls of a run *)

(** As [open_capture], keeping what the conditionals evaluated to, with
    the plan unfolded beside the code. *)
Ltac open_run v :=
  destruct v as [u fs up na w h z f q d c];
  cbn [url fullSize useProxy noAds width height zoom format quality delay css] in *;
  unfold plan, capture_call, capture;
  cbn [url fullSize useProxy noAds width height zoom format quality delay css];
  destruct na; destruct (truthy c) eqn:Etruthy; destruct (gt d 0) eqn:Egt; destruct f;
  unfold bind, await, register, ret; cbn [app].

(** Case analysis on the membership of an event in an explicit list. *)
Ltac pick_event :=
  repeat match goal with
    | H : _ \/ _ |- _ => destruct H as [H | H]
    | H : False |- _ => contradiction
    | H : (_, _) = (_, _) |- _ => first [discriminate H | injection H as ? ?; subst]
    end.

(** Splitting an explicit list of events at its last one. *)
Ltac last_event :=
  first [ eexists [], _, _; split; [reflexivity|]
        | eexists [_], _, _; split; [reflexivity|]
        | eexists [_; _], _, _; split; [reflexivity|]
        | eexists [_; _; _], _, _; split; [reflexivity|]
        | eexists [_; _; _; _], _, _; split; [reflexivity|]
        | eexists [_; _; _; _; _], _, _; split; [reflexivity|]
        | eexists [_; _; _; _; _; _], _, _; split; [reflexivity|]
        | eexists [_; _; _; _; _; _; _], _, _; split; [reflexivity|]
        | eexists [_; _; _; _; _; _; _; _], _, _; split; [reflexivity|]
        | eexists [_; _; _; _; _; _; _; _; _], _, _; split; [reflexivity|] ].

(** X8: the calls of a run are an initial segment of the plan (launch,
    newPage, setViewport, the two interception calls if noAds,
    goto, the style injection if css is non-empty, the wait if
    delay is positive, the capture, close), in that order.  Either every
    call resolved, the whole plan was run and the response is a success
    with status 200; or the run stopped at the first rejected call, which
    is its last event and the error that is logged, and the response is
    the fixed failure. *)
Theorem calls_follow_plan is_url browser data v :
  screenshotSchema_parse is_url data = inl v ->
  map fst (calls (POST is_url browser (mkRequest (Some data)))) =
    firstn (List.length (calls (POST is_url browser (mkRequest (Some data))))) (plan v) /\
  ((forallb settles (calls (POST is_url browser (mkRequest (Some data)))) = true /\
    map fst (calls (POST is_url browser (mkRequest (Some data)))) = plan v /\
    console_error (POST is_url browser (mkRequest (Some data))) = [] /\
    exists shot,
      response (POST is_url browser (mkRequest (Some data))) =
        NextResponse_json (success_true shot) 200) \/
   (exists pre c e,
      calls (POST is_url browser (mkRequest (Some data))) = pre ++ [(c, rejected e)] /\
      forallb settles pre = true /\
      response (POST is_url browser (mkRequest (Some data))) = failure_response /\
      console_error (POST is_url browser (mkRequest (Some data))) = [e])).
Proof.
  intros P. rewrite (POST_valid _ _ _ _ P).
  open_run v; repeat next_call browser; cbn [calls response console_error];
    (split; [reflexivity|]);
    first [ left; split; [reflexivity|]; split; [reflexivity|]; split; [reflexivity|];
            eexists; reflexivity
          | right; last_event; split; [reflexivity|]; split; reflexivity ].
Qed.

Lemma calls_follow_plan_witness :
  let run := POST has_http_scheme (failing_navigation name_not_resolved) example_request in
  map fst (calls run) =
    [puppeteer_launch true; browser_newPage; page_setViewport 1280 720 (quotient 100 100);
     page_goto "https://example.com" "networkidle0"] /\
  exists pre c e, calls run = pre ++ [(c, rejected e)] /\ console_error run = [e].
Proof.
  intros run.
  destruct (calls_follow_plan has_http_scheme (failing_navigation name_not_resolved)
              (JsObject example_fields)
              (mkValidated "https://example.com" false false false 1280 720 100 png 80 0 None)
              eq_refl) as [Prefix [(Settled & _) | (pre & c & e & Last & _ & _ & Logged)]].
  - discriminate Settled.
  - split; [exact Prefix|]. exists pre, c, e. split; assumption.
Defined.

(** X9: when the browser rejects nothing, the route makes exactly the
    calls of the plan, closes the browser, and answers 200 with the data
    URI of the bytes the capture call resolved with. *)
Theorem whole_plan_when_nothing_is_rejected is_url browser data v :
  screenshotSchema_parse is_url data = inl v ->
  never_rejects browser ->
  map fst (calls (POST is_url browser (mkRequest (Some data)))) = plan v /\
  torn_down (calls (POST is_url browser (mkRequest (Some data)))) = true /\
  exists buffer,
    In (capture_call v, resolved buffer)
       (calls (POST is_url browser (mkRequest (Some data)))) /\
    response (POST is_url browser (mkRequest (Some data))) =
      NextResponse_json (success_true (data_uri (format v) buffer)) 200.
Proof.
  intros P N. rewrite (POST_valid _ _ _ _ P).
  open_run v; repeat next_call browser;
    try (match goal with
         | O : browser ?tr ?c = rejected _ |- _ =>
             destruct (N tr c) as [b' R]; rewrite R in O; discriminate O
         end);
    cbn [calls response]; (split; [reflexivity|]); (split; [reflexivity|]);
    eexists; (split; [cbn [In]; tauto | reflexivity]).
Qed.

Lemma cooperative_never_rejects : never_rejects cooperative.
Proof. intros tr c. destruct c; eexists; reflexivity. Qed.

Lemma whole_plan_when_nothing_is_rejected_witness :
  let run := POST has_http_scheme cooperative example_request in
  map fst (calls run) =
    [puppeteer_launch true; browser_newPage; page_setViewport 1280 720 (quotient 100 100);
     page_goto "https://example.com" "networkidle0";
     page_screenshot false "png" None; browser_close] /\
  torn_down (calls run) = true.
Proof.
  intros run.
  destruct (whole_plan_when_nothing_is_rejected has_http_scheme cooperative
              (JsObject example_fields)
              (mkValidated "https://example.com" false false false 1280 720 100 png 80 0 None)
              eq_refl cooperative_never_rejects) as (Plan & Closed & _).
  split; [exact Plan | exact Closed].
Defined.

(** X10: a rejected browser.close masks the artifact: the capture call
    had resolved, yet the response is the fixed failure. *)
Theorem rejected_close_masks_the_capture is_url browser data v reason :
  screenshotSchema_parse is_url data = inl v ->
  In (browser_close, rejected reason)
     (calls (POST is_url browser (mkRequest (Some data)))) ->
  response (POST is_url browser (mkRequest (Some data))) = failure_response /\
  exists buffer,
    In (capture_call v, resolved buffer)
       (calls (POST is_url browser (mkRequest (Some data)))).
Proof.
  intros P. rewrite (POST_valid _ _ _ _ P).
  open_run v; repeat next_call browser; cbn [calls response In]; intros I;
    pick_event; (split; [reflexivity|]); eexists; tauto.
Qed.

Lemma rejected_close_masks_the_capture_witness :
  let run := POST has_http_scheme refusing_to_close example_request in
  In (page_screenshot false "png" None, resolved [x89; x50; x4e]%byte) (calls run) /\
  response run = failure_response.
Proof.
  intros run.
  destruct (rejected_close_masks_the_capture has_http_scheme refusing_to_close
              (JsObject example_fields)
              (mkValidated "https://example.com" false false false 1280 720 100 png 80 0 None)
              (Error "Protocol error: Target closed") eq_refl)
    as [Failure _].
  - cbn. tauto.
  - split; [cbn; tauto | exact Failure].
Defined.

(** X11: a request launches at most one browser and closes at most
    once. *)
Theorem one_launch_one_close is_url browser req :
  (List.length (filter launches (calls (POST is_url browser req))) <= 1)%nat /\
  (List.length (filter closes (calls (POST is_url browser req))) <= 1)%nat.
Proof.
  destruct req as [[data|]]; [|cbn; lia].
  destruct (parse_cases is_url data) as [[v P] | R].
  - rewrite (POST_valid _ _ _ _ P).
    open_run v; repeat next_call browser; cbn; lia.
  - destruct (rejected_run is_url browser data R) as [_ ->]. cbn. lia.
Qed.

(** X12: without noAds the route never turns request interception on and
    registers no request handler: no request of the page is aborted by
    the route. *)
Theorem no_interception_without_noAds is_url browser data v call outcome :
  screenshotSchema_parse is_url data = inl v ->
  noAds v = false ->
  In (call, outcome) (calls (POST is_url browser (mkRequest (Some data)))) ->
  intercepts call = false.
Proof.
  intros P A. rewrite (POST_valid _ _ _ _ P). revert A.
  open_run v; intros A; try discriminate A;
    repeat next_call browser; cbn [calls In]; intros I; pick_event; reflexivity.
Qed.

Lemma no_interception_without_noAds_witness :
  In (page_goto "https://example.com" "networkidle0", resolved [])
     (calls (POST has_http_scheme cooperative example_request)) /\
  intercepts (page_goto "https://example.com" "networkidle0") = false.
Proof.
  assert (I : In (page_goto "https://example.com" "networkidle0", resolved [])
                (calls (POST has_http_scheme cooperative example_request)))
    by (cbn; tauto).
  split; [exact I|].
  exact (no_interception_without_noAds has_http_scheme cooperative
           (JsObject example_fields)
           (mkValidated "https://example.com" false false false 1280 720 100 png 80 0 None)
           _ _ eq_refl eq_refl I).
Defined.

Lemma truthy_text c : truthy c = true -> c = Some (text c) /\ text c <> "".
Proof.
  destruct c as [[|a s]|]; try discriminate. intros _. split; [reflexivity | discriminate].
Qed.

(** X13: a style is injected only when the request carries a non-empty
    css string, with exactly that text, and only after navigation has
    resolved; an absent or empty css injects nothing. *)
Theorem style_injected_only_when_given is_url browser data v s o :
  screenshotSchema_parse is_url data = inl v ->
  In (page_evaluate_style s, o) (calls (POST is_url browser (mkRequest (Some data)))) ->
  css v = Some s /\ s <> "" /\
  exists b,
    In (page_goto (url v) "networkidle0", resolved b)
       (calls (POST is_url browser (mkRequest (Some data)))).
Proof.
  intros P. rewrite (POST_valid _ _ _ _ P).
  open_run v; repeat next_call browser; cbn [calls In]; intros I; pick_event;
    destruct (truthy_text _ Etruthy) as [Ec Ne];
    (split; [exact Ec|]); (split; [exact Ne|]); eexists; tauto.
Qed.

Lemma style_injected_only_when_given_witness :
  let data := JsObject (("css", JsString "nav{display:none}") :: example_fields) in
  In (page_evaluate_style "nav{display:none}", resolved [])
     (calls (POST has_http_scheme cooperative (mkRequest (Some data)))) /\
  exists b,
    In (page_goto "https://example.com" "networkidle0", resolved b)
       (calls (POST has_http_scheme cooperative (mkRequest (Some data)))).
Proof.
  intros data.
  assert (I : In (page_evaluate_style "nav{display:none}", resolved [])
                (calls (POST has_http_scheme cooperative (mkRequest (Some data)))))
    by (cbn; tauto).
  split; [exact I|].
  destruct (style_injected_only_when_given has_http_scheme cooperative data
              (mkValidated "https://example.com" false false false 1280 720 100 png 80 0
                 (Some "nav{display:none}"))
              "nav{display:none}" (resolved []) eq_refl I) as (_ & _ & G).
  exact G.
Defined.

Lemma gt_0 d : gt d 0 = true -> 0 < d.
Proof.
  unfold gt. intros G. apply negb_true_iff in G.
  apply Qnot_le_lt. intros L. apply Qle_bool_iff in L. congruence.
Qed.

(** X14: the route waits only when the delay is positive, and then for
    exactly the delay of the request, which is at most 10000 ms; with
    delay 0 (or no delay given) it never waits. *)
Theorem waits_only_for_a_positive_delay is_url browser data v ms o :
  screenshotSchema_parse is_url data = inl v ->
  In (page_waitForTimeout ms, o) (calls (POST is_url browser (mkRequest (Some data)))) ->
  ms = delay v /\ 0 < ms /\ ms <= 10000.
Proof.
  intros P.
  assert (B : delay v <= 10000).
  { apply parse_fields in P as (o' & _ & _ & _ & _ & _ & _ & _ & _ & _ & _ & Hd & _).
    apply min_max_default_bounds in Hd as [[_ ->] | (_ & _ & ?)]; [discriminate | assumption]. }
  rewrite (POST_valid _ _ _ _ P). revert B.
  open_run v; intros B; repeat next_call browser; cbn [calls In]; intros I; pick_event;
    (split; [reflexivity|]); (split; [exact (gt_0 _ Egt) | exact B]).
Qed.

Lemma waits_only_for_a_positive_delay_witness :
  let data := JsObject (("delay", JsNumber 2500) :: example_fields) in
  In (page_waitForTimeout 2500, resolved [])
     (calls (POST has_http_scheme cooperative (mkRequest (Some data)))) /\
  0 < 2500 /\ 2500 <= 10000.
Proof.
  intros data.
  assert (I : In (page_waitForTimeout 2500, resolved [])
                (calls (POST has_http_scheme cooperative (mkRequest (Some data)))))
    by (cbn; tauto).
  split; [exact I|].
  destruct (waits_only_for_a_positive_delay has_http_scheme cooperative data
              (mkValidated "https://example.com" false false false 1280 720 100 png 80 2500 None)
              2500 (resolved []) eq_refl I) as (_ & Pos & Max).
  split; [exact Pos | exact Max].
Defined.

(** X15: for png and jpeg the only capture call is page.screenshot with
    fullPage set to fullSize and type set to the format; quality is
    passed for jpeg only, and lies between 0 and 100; a success response
    is tagged image/png or image/jpeg accordingly. *)
Theorem raster_capture_call is_url browser data v :
  screenshotSchema_parse is_url data = inl v ->
  format v <> pdf ->
  (forall c o,
      In (c, o) (calls (POST is_url browser (mkRequest (Some data)))) ->
      is_capture c = true ->
      c = page_screenshot (fullSize v) (format_name (format v))
            (match format v with jpeg => Some (quality v) | _ => None end)) /\
  0 <= quality v /\ quality v <= 100 /\
  (forall shot,
      payload (response (POST is_url browser (mkRequest (Some data)))) = success_true shot ->
      exists buffer,
        shot = ("data:image/" ++ format_name (format v) ++ ";base64,"
                ++ Base64.encode buffer)%string).
Proof.
  intros P F.
  assert (B : 0 <= quality v /\ quality v <= 100).
  { apply parse_fields in P as (o' & _ & _ & _ & _ & _ & _ & _ & _ & _ & Hq & _).
    apply min_max_default_bounds in Hq as [[_ ->] | (_ & ? & ?)];
      [split; discriminate | split; assumption]. }
  rewrite (POST_valid _ _ _ _ P).
  split; [| split; [exact (proj1 B) | split; [exact (proj2 B) |]]]; clear B; revert F.
  - intros F c' o. revert F.
    open_run v; intros F; try contradiction (F eq_refl);
      repeat next_call browser; cbn [calls In]; intros I C; pick_event;
      solve [reflexivity | discriminate C].
  - intros F shot. revert F.
    open_run v; intros F; try contradiction (F eq_refl);
      repeat next_call browser; cbn [response payload]; intros S; try discriminate S;
      injection S as <-; eexists; reflexivity.
Qed.

Lemma raster_capture_call_witness :
  let data := JsObject (("format", JsString "jpeg") :: ("fullSize", JsBool true)
                          :: ("quality", JsNumber 60) :: example_fields) in
  In (page_screenshot true "jpeg" (Some 60), resolved [x89; x50; x4e]%byte)
     (calls (POST has_http_scheme cooperative (mkRequest (Some data)))) /\
  exists buffer,
    payload (response (POST has_http_scheme cooperative (mkRequest (Some data)))) =
      success_true ("data:image/jpeg;base64," ++ Base64.encode buffer)%string.
Proof.
  intros data. split; [cbn; tauto|].
  destruct (raster_capture_call has_http_scheme cooperative data
              (mkValidated "https://example.com" true false false 1280 720 100 jpeg 60 0 None)
              eq_refl) as (_ & _ & _ & Tagged).
  - discriminate.
  - destruct (Tagged "data:image/jpeg;base64,iVBO" eq_refl) as [buffer E].
    exists buffer. exact (f_equal success_true E).
Defined.

(** X16: the viewport is set to the width and height of the request,
    which are within 100..3840 and 100..2160, and to the scale factor
    zoom / 100 of a zoom that is within 10..200. *)
Theorem viewport_is_the_requested_one is_url browser data v vw vh scale outcome :
  screenshotSchema_parse is_url data = inl v ->
  In (page_setViewport vw vh scale, outcome)
     (calls (POST is_url browser (mkRequest (Some data)))) ->
  vw = width v /\ vh = height v /\ scale = quotient (zoom v) 100 /\
  100 <= vw /\ vw <= 3840 /\ 100 <= vh /\ vh <= 2160 /\
  10 <= zoom v /\ zoom v <= 200.
Proof.
  intros P.
  assert (B : (100 <= width v /\ width v <= 3840) /\ (100 <= height v /\ height v <= 2160) /\
              (10 <= zoom v /\ zoom v <= 200)).
  { apply parse_fields in P as (o' & _ & _ & _ & _ & _ & Hw & Hh & Hz & _).
    apply min_max_bounds in Hw as [_ Hw], Hh as [_ Hh], Hz as [_ Hz].
    split; [exact Hw|]. split; [exact Hh | exact Hz]. }
  rewrite (POST_valid _ _ _ _ P). revert B.
  open_run v; intros B; repeat next_call browser; cbn [calls In]; intros I; pick_event;
    repeat (split; [reflexivity|]); tauto.
Qed.

Lemma viewport_is_the_requested_one_witness :
  let data := JsObject (("zoom", JsNumber 200) :: example_fields) in
  In (page_setViewport 1280 720 (quotient 200 100), resolved [])
     (calls (POST has_http_scheme cooperative (mkRequest (Some data)))) /\
  100 <= 1280 /\ 1280 <= 3840 /\ 100 <= 720 /\ 720 <= 2160.
Proof.
  intros data.
  assert (I : In (page_setViewport 1280 720 (quotient 200 100), resolved [])
                (calls (POST has_http_scheme cooperative (mkRequest (Some data)))))
    by (cbn; tauto).
  split; [exact I|].
  destruct (viewport_is_the_requested_one has_http_scheme cooperative data
              (mkValidated "https://example.com" false false false 1280 720 200 png 80 0 None)
              1280 720 (quotient 200 100) (resolved []) eq_refl I)
    as (_ & _ & _ & W1 & W2 & H1 & H2 & _).
  repeat split; assumption.
Defined.

(** X17: nothing is captured unless navigation to the URL of the
    request, which passed the URL check, has resolved. *)
Theorem capture_only_after_navigation is_url browser data v call outcome :
  screenshotSchema_parse is_url data = inl v ->
  In (call, outcome) (calls (POST is_url browser (mkRequest (Some data)))) ->
  is_capture call = true ->
  is_url (url v) = true /\
  exists b,
    In (page_goto (url v) "networkidle0", resolved b)
       (calls (POST is_url browser (mkRequest (Some data)))).
Proof.
  intros P.
  assert (U : is_url (url v) = true).
  { apply parse_fields in P as (o' & _ & Hu & _). now apply z_string_url_some in Hu. }
  rewrite (POST_valid _ _ _ _ P). revert U.
  open_run v; intros U; repeat next_call browser; cbn [calls In]; intros I C; pick_event;
    try discriminate C; (split; [exact U|]); eexists; tauto.
Qed.

Lemma capture_only_after_navigation_witness :
  exists b,
    In (page_goto "https://example.com" "networkidle0", resolved b)
       (calls (POST has_http_scheme cooperative example_request)).
Proof.
  destruct (capture_only_after_navigation has_http_scheme cooperative
              (JsObject example_fields)
              (mkValidated "https://example.com" false false false 1280 720 100 png 80 0 None)
              (page_screenshot false "png" None) (resolved [x89; x50; x4e]%byte) eq_refl)
    as (_ & G).
  - cbn. tauto.
  - reflexivity.
  - exact G.
Defined.

End RouteMore.

(** ** More facts about the composer page *)

Module PageMore.

Import Page PageFacts.

(** X18: when the endpoint cannot be reached, answers something that is
    not JSON, or answers with success false, one request has been sent,
    the user sees the toast Failed to capture screenshot, the error is
    logged, and the preview, the history and the storage are as before. *)
Theorem failed_capture_changes_nothing env c :
  url (options c) <> "" ->
  (forall shot, fetch env (options c) <> json_data (Route.success_true shot)) ->
  requests (handleScreenshot env c) = requests c ++ [options c] /\
  toasts (handleScreenshot env c) =
    toasts c ++ [toast_error "Failed to capture screenshot"] /\
  (exists e, console (handleScreenshot env c) = console c ++ [e]) /\
  screenshot (handleScreenshot env c) = screenshot c /\
  history (handleScreenshot env c) = history c /\
  localStorage (handleScreenshot env c) = localStorage c.
Proof.
  intros Hu Hf. run_handler env c; try contradiction;
    try (contradiction (Hf shot); reflexivity);
    repeat split; eexists; reflexivity.
Qed.

Lemma failed_capture_changes_nothing_witness :
  let c := setOptions example_options (mount (initial (Some ten_items))) in
  requests (handleScreenshot failing_env c) = [example_options] /\
  toasts (handleScreenshot failing_env c) = [toast_error "Failed to capture screenshot"] /\
  history (handleScreenshot failing_env c) = ten_items.
Proof.
  intros c.
  destruct (failed_capture_changes_nothing failing_env c) as (R & T & _ & _ & H & _).
  - discriminate.
  - discriminate.
  - split; [exact R|]. split; [exact T | exact H].
Defined.

(** X19: when the storage refuses the write (a full quota), the preview
    and the history have already been updated with the new capture, the
    storage keeps its old content, and the user is told the capture
    failed. *)
Theorem refused_write_comes_after_the_update env c artifact refusal :
  url (options c) <> "" ->
  fetch env (options c) = json_data (Route.success_true artifact) ->
  setItem env (new_item env c artifact :: slice 0 9 (history c)) = Some refusal ->
  screenshot (handleScreenshot env c) = Some artifact /\
  history (handleScreenshot env c) = new_item env c artifact :: slice 0 9 (history c) /\
  localStorage (handleScreenshot env c) = localStorage c /\
  toasts (handleScreenshot env c) =
    toasts c ++ [toast_error "Failed to capture screenshot"] /\
  console (handleScreenshot env c) = console c ++ [refusal].
Proof.
  intros Hu Hf Hw. unfold new_item in Hw. run_handler env c; try contradiction;
    try congruence.
  injection Hf as ->. rewrite Hw in W. injection W as <-.
  repeat split.
Qed.

Lemma refused_write_comes_after_the_update_witness :
  let c := setOptions example_options (mount (initial (Some ten_items))) in
  screenshot (handleScreenshot full_storage_env c) = Some "data:image/png;base64,iVBO" /\
  List.length (history (handleScreenshot full_storage_env c)) = 10%nat /\
  localStorage (handleScreenshot full_storage_env c) = Some ten_items /\
  toasts (handleScreenshot full_storage_env c) =
    [toast_error "Failed to capture screenshot"].
Proof.
  intros c.
  destruct (refused_write_comes_after_the_update full_storage_env c
              "data:image/png;base64,iVBO" (Error "QuotaExceededError"))
    as (S & H & L & T & _).
  - discriminate.
  - reflexivity.
  - reflexivity.
  - split; [exact S|]. split; [rewrite H; reflexivity|]. split; [exact L | exact T].
Defined.

(** X20: a capture that goes through and is stored sends the current
    options once, shows the returned artifact, puts an entry with the
    current URL, the two clock readings and the artifact in front of the
    first nine old entries, stores that very list, and shows the success
    toast. *)
Theorem stored_capture env c artifact :
  url (options c) <> "" ->
  fetch env (options c) = json_data (Route.success_true artifact) ->
  setItem env (new_item env c artifact :: slice 0 9 (history c)) = None ->
  requests (handleScreenshot env c) = requests c ++ [options c] /\
  screenshot (handleScreenshot env c) = Some artifact /\
  history (handleScreenshot env c) = new_item env c artifact :: slice 0 9 (history c) /\
  localStorage (handleScreenshot env c) = Some (history (handleScreenshot env c)) /\
  toasts (handleScreenshot env c) =
    toasts c ++ [toast_success "Screenshot captured successfully!"] /\
  console (handleScreenshot env c) = console c.
Proof.
  intros Hu Hf Hw. unfold new_item in Hw. run_handler env c; try contradiction;
    try congruence.
  injection Hf as ->. repeat split.
Qed.

Lemma stored_capture_witness :
  let c := setOptions example_options (mount (initial None)) in
  history (handleScreenshot example_env c) = [example_item 1700000000000] /\
  localStorage (handleScreenshot example_env c) = Some [example_item 1700000000000] /\
  toasts (handleScreenshot example_env c) =
    [toast_success "Screenshot captured successfully!"].
Proof.
  intros c.
  destruct (stored_capture example_env c "data:image/png;base64,iVBO")
    as (_ & _ & H & L & T & _).
  - discriminate.
  - reflexivity.
  - reflexivity.
  - split; [rewrite H; reflexivity|]. split; [rewrite L, H; reflexivity | exact T].
Defined.

(** X21: whatever happens, a click ends with the loading flag off and
    the options untouched, has shown exactly one toast, and has sent at
    most one request, whose body is the current options. *)
Theorem every_click_ends_cleanly env c :
  isLoading (handleScreenshot env c) = false /\
  options (handleScreenshot env c) = options c /\
  (exists t, toasts (handleScreenshot env c) = toasts c ++ [t]) /\
  (requests (handleScreenshot env c) = requests c \/
   requests (handleScreenshot env c) = requests c ++ [options c]).
Proof.
  run_handler env c; (split; [reflexivity|]); (split; [reflexivity|]);
    (split; [eexists; reflexivity|]); solve [left; reflexivity | right; reflexivity].
Qed.

(** X22: what a stored capture leaves in the storage is what the next
    page load shows as history: the mount effect on a fresh page gives back
    the history of the page that stored it, while the preview starts
    empty. *)
Theorem reload_restores_the_history env c artifact :
  url (options c) <> "" ->
  fetch env (options c) = json_data (Route.success_true artifact) ->
  setItem env (new_item env c artifact :: slice 0 9 (history c)) = None ->
  history (mount (initial (localStorage (handleScreenshot env c)))) =
    history (handleScreenshot env c) /\
  screenshot (mount (initial (localStorage (handleScreenshot env c)))) = None.
Proof.
  intros Hu Hf Hw. unfold new_item in Hw. run_handler env c; try contradiction;
    try congruence.
  split; reflexivity.
Qed.

Lemma reload_restores_the_history_witness :
  let c := setOptions example_options (mount (initial (Some ten_items))) in
  history (mount (initial (localStorage (handleScreenshot example_env c)))) =
    example_item 1700000000000 :: map example_item [10; 9; 8; 7; 6; 5; 4; 3; 2]%Z.
Proof.
  intros c.
  destruct (reload_restores_the_history example_env c "data:image/png;base64,iVBO")
    as (H & _).
  - discriminate.
  - reflexivity.
  - reflexivity.
  - rewrite H. reflexivity.
Defined.

(** *** The preview and the history *)






Lemma firstn_In {A : Type} (n : nat) (l : list A) (x : A) :
  In x (firstn n l) -> In x l.
Proof.
  revert n. induction l as [|a l IH]; intros [|n]; cbn; try tauto.
  intros [-> | I]; [now left | right; exact (IH n I)].
Qed.

Lemma StronglySorted_firstn {A : Type} (R : A -> A -> Prop) (n : nat) (l : list A) :
  StronglySorted R l -> StronglySorted R (firstn n l).
Proof.
  intros S. revert n. induction S as [|a l S IH F]; intros [|n]; cbn; try constructor.
  - apply IH.
  - apply Forall_forall. intros x I. apply firstn_In in I.
    rewrite Forall_forall in F. exact (F x I).
Qed.

Lemma firstn_of_map {A B : Type} (g : A -> B) (n : nat) (l : list A) :
  firstn n (map g l) = map g (firstn n l).
Proof. revert n. induction l as [|a l IH]; intros [|n]; cbn; congruence. Qed.

(** X25: as long as the clock does not run backwards, the history stays
    ordered by time, newest first: if the timestamps are in descending
    order and none is later than the clock, so they are after a click,
    whatever its outcome. *)
Theorem history_stays_newest_first env c :
  StronglySorted Z.ge (timestamps (history c)) ->
  Forall (fun t => (t <= now_timestamp env)%Z) (timestamps (history c)) ->
  StronglySorted Z.ge (timestamps (history (handleScreenshot env c))) /\
  Forall (fun t => (t <= now_timestamp env)%Z)
    (timestamps (history (handleScreenshot env c))).
Proof.
  intros S B.
  assert (New : forall item, timestamp item = now_timestamp env ->
            StronglySorted Z.ge (timestamps (item :: slice 0 9 (history c))) /\
            Forall (fun t => (t <= now_timestamp env)%Z)
              (timestamps (item :: slice 0 9 (history c)))).
  { intros item T. rewrite slice_0. unfold timestamps in *. cbn [map].
    rewrite T, <- firstn_of_map.
    assert (B' : Forall (fun t => (t <= now_timestamp env)%Z)
                   (firstn 9 (map timestamp (history c)))).
    { apply Forall_forall. intros x I. apply firstn_In in I.
      rewrite Forall_forall in B. exact (B x I). }
    split.
    - constructor; [apply StronglySorted_firstn; exact S|].
      apply Forall_forall. intros x I. rewrite Forall_forall in B'.
      specialize (B' x I). lia.
    - constructor; [lia | exact B']. }
  run_handler env c;
    first [split; assumption | exact (New (new_item env c shot) eq_refl)].
Qed.

Lemma history_stays_newest_first_witness :
  let c := setOptions example_options (mount (initial (Some ten_items))) in
  StronglySorted Z.ge (timestamps (history (handleScreenshot example_env c))).
Proof.
  intros c.
  assert (S : StronglySorted Z.ge (timestamps (history c))).
  { cbv [c timestamps]. cbn.
    repeat (constructor; [| repeat constructor; lia]). constructor. }
  assert (B : Forall (fun t => (t <= now_timestamp example_env)%Z) (timestamps (history c))).
  { cbv [c timestamps]. cbn. repeat constructor; lia. }
  exact (proj1 (history_stays_newest_first example_env c S B)).
Defined.

(** *** The resolution menu *)

Lemma split_free sep s : free_of sep s = true -> split sep s = [s].
Proof.
  induction s as [|a s IH]; cbn; [reflexivity|].
  intros F. apply andb_prop in F as [Na Fs]. apply negb_true_iff in Na.
  rewrite Na, (IH Fs). reflexivity.
Qed.

Lemma split_append sep s1 s2 :
  free_of sep s1 = true ->
  split sep (s1 ++ String sep s2)%string = s1 :: split sep s2.
Proof.
  induction s1 as [|a s1 IH]; cbn.
  - intros _. rewrite Ascii.eqb_refl. reflexivity.
  - intros F. apply andb_prop in F as [Na Fs]. apply negb_true_iff in Na.
    rewrite Na, (IH Fs). reflexivity.
Qed.

Lemma digits_free_of_x d :
  free_of "x" (DecimalString.NilEmpty.string_of_uint d) = true.
Proof. induction d; cbn; auto. Qed.

Lemma toString_free_of_x n : free_of "x" (toString n) = true.
Proof.
  unfold toString. destruct (Z.to_int n) as [d|d]; cbn;
    destruct d; cbn; auto using digits_free_of_x.
Qed.

(** X26: the menu value is read back exactly: for a width and a height
    that are integers a double holds, choosing the value the select
    element shows for them sets the options to that width and height and
    leaves every other option, and the rest of the page, as it was. *)
Theorem menu_value_is_read_back Number w h c :
  reads_integers Number ->
  (0 <= w < 2 ^ 53)%Z -> (0 <= h < 2 ^ 53)%Z ->
  handleResolutionChange Number (resolution_value w h) c =
    Some (setOptions (with_resolution (inject_Z w) (inject_Z h) (options c)) c).
Proof.
  intros N W H. unfold handleResolutionChange, resolution_value.
  change ("x" ++ toString h)%string with (String "x" (toString h)).
  rewrite (split_append "x" _ _ (toString_free_of_x w)).
  rewrite (split_free "x" _ (toString_free_of_x h)).
  cbn [map]. rewrite (N w W), (N h H). reflexivity.
Qed.

Lemma decimal_Number_reads_integers : reads_integers decimal_Number.
Proof.
  intros n _. unfold decimal_Number, toString.
  rewrite DecimalString.NilZero.isi.
  - cbn. rewrite DecimalZ.of_to. reflexivity.
  - destruct n; cbn; try discriminate.
    intros [= E]. exact (DecimalPos.Unsigned.to_uint_nonnil _ E).
  - destruct n; cbn; try discriminate.
    intros [= E]. exact (DecimalPos.Unsigned.to_uint_nonnil _ E).
Qed.

Lemma menu_value_is_read_back_witness :
  resolution_value 1920 1080 = "1920x1080" /\
  option_map options
    (handleResolutionChange decimal_Number "1920x1080" (mount (initial None))) =
    Some (mkOptions "" false false false 1920 1080 100 Route.png 80 0 "").
Proof.
  split; [reflexivity|].
  change "1920x1080" with (resolution_value 1920 1080).
  rewrite (menu_value_is_read_back decimal_Number 1920 1080 (mount (initial None))
             decimal_Number_reads_integers);
    [reflexivity | lia | lia].
Defined.

End PageMore.

(** ** Facts about the page talking to the route *)

Module EndToEnd.

Import RouteFacts RouteMore PageFacts.

Lemma in_range_iff lo hi q : Route.in_range lo hi q = true <-> lo <= q /\ q <= hi.
Proof.
  unfold Route.in_range. rewrite andb_true_iff, !Qle_bool_iff. reflexivity.
Qed.

Lemma format_name_read_back f d :
  Route.z_enum_format_default d (Some (JsString (Route.format_name f))) = Some f.
Proof. destruct f; reflexivity. Qed.

Lemma acceptable_parses is_url o :
  Wire.acceptable is_url o ->
  Route.screenshotSchema_parse is_url (Wire.JSON_of_options o) = inl (Wire.validated_of o).
Proof.
  intros (U & W1 & W2 & H1 & H2 & Z1 & Z2 & Q1 & Q2 & D1 & D2).
  unfold Route.screenshotSchema_parse, Wire.JSON_of_options.
  cbn [property String.eqb Ascii.eqb Bool.eqb].
  unfold Route.z_string_url, Route.z_number_min_max_default, Route.z_number_min_max.
  rewrite U, format_name_read_back.
  rewrite (proj2 (in_range_iff _ _ _) (conj W1 W2)), (proj2 (in_range_iff _ _ _) (conj H1 H2)),
    (proj2 (in_range_iff _ _ _) (conj Z1 Z2)), (proj2 (in_range_iff _ _ _) (conj Q1 Q2)),
    (proj2 (in_range_iff _ _ _) (conj D1 D2)).
  reflexivity.
Qed.

Lemma parses_acceptable is_url o v :
  Route.screenshotSchema_parse is_url (Wire.JSON_of_options o) = inl v ->
  Wire.acceptable is_url o /\ v = Wire.validated_of o.
Proof.
  intros P.
  apply parse_fields in P
    as (o' & [= <-] & Hu & Hf & Hp & Ha & Hw & Hh & Hz & Ht & Hq & Hd & Hc).
  cbn [property String.eqb Ascii.eqb Bool.eqb] in *.
  rewrite format_name_read_back in Ht.
  unfold Route.z_string_url in Hu. destruct (is_url (Page.url o)) eqn:U; [|discriminate].
  apply min_max_bounds in Hw as ([= Ew] & ? & ?), Hh as ([= Eh] & ? & ?),
    Hz as ([= Ez] & ? & ?).
  unfold Route.z_number_min_max_default in Hq, Hd.
  apply min_max_bounds in Hq as ([= Eq] & ? & ?), Hd as ([= Ed] & ? & ?).
  cbn in Hf, Hp, Ha, Hc.
  injection Hu as Eu. injection Hf as Ef. injection Hp as Ep. injection Ha as Ea.
  injection Ht as Et. injection Hc as Ec.
  split.
  - unfold Wire.acceptable. rewrite Ew, Eh, Ez, Eq, Ed. tauto.
  - destruct v. cbn in *. unfold Wire.validated_of. congruence.
Qed.

(** X27: the options of the page, sent as JSON, pass the schema exactly
    when the URL passes the URL check and width, height, zoom, quality
    and delay are within their ranges; the validated request then has
    the page's values field by field, with css always present as a
    string. *)
Theorem options_pass_iff_acceptable is_url o v :
  Route.screenshotSchema_parse is_url (Wire.JSON_of_options o) = inl v <->
  Wire.acceptable is_url o /\ v = Wire.validated_of o.
Proof.
  split.
  - apply parses_acceptable.
  - intros [A ->]. now apply acceptable_parses.
Qed.

Lemma options_pass_iff_acceptable_witness :
  Route.screenshotSchema_parse Route.has_http_scheme
    (Wire.JSON_of_options Page.example_options) =
  inl (Route.mkValidated "https://example.com" false false false 1280 720 100 Route.png
         80 0 (Some "")).
Proof.
  apply (proj2 (options_pass_iff_acceptable Route.has_http_scheme Page.example_options _)).
  split; [|reflexivity].
  unfold Wire.acceptable. cbn. repeat split; discriminate.
Defined.

Lemma served_when_nothing_is_rejected is_url browser o :
  Wire.acceptable is_url o ->
  Route.never_rejects browser ->
  exists buffer,
    In (Route.capture_call (Wire.validated_of o), Route.resolved buffer)
       (Route.calls (Wire.served is_url browser o)) /\
    Route.torn_down (Route.calls (Wire.served is_url browser o)) = true /\
    Route.payload (Route.response (Wire.served is_url browser o)) =
      Route.success_true (Route.data_uri (Page.format o) buffer).
Proof.
  intros A N. unfold Wire.served.
  rewrite (POST_valid _ _ _ _ (acceptable_parses is_url o A)).
  change (Page.format o) with (Route.format (Wire.validated_of o)).
  generalize (Wire.validated_of o). intros v.
  open_run v; repeat next_call browser;
    try (match goal with
         | O : browser ?tr ?c = Route.rejected _ |- _ =>
             destruct (N tr c) as [b' R]; rewrite R in O; discriminate O
         end);
    cbn [Route.calls Route.response Route.payload];
    eexists; (split; [cbn [In]; tauto|]); split; reflexivity.
Qed.

(** X28: end to end, with acceptable options, a URL typed in and a
    browser that rejects nothing: the route captures, closes the browser
    and answers; the page then previews the data URI of the captured
    bytes, tagged with the selected format, and puts it, with the URL, in
    front of the first nine old history entries. *)
Theorem capture_end_to_end is_url browser now_id now_timestamp setItem c :
  Page.url (Page.options c) <> "" ->
  Wire.acceptable is_url (Page.options c) ->
  Route.never_rejects browser ->
  exists buffer,
    In (Route.capture_call (Wire.validated_of (Page.options c)), Route.resolved buffer)
       (Route.calls (Wire.served is_url browser (Page.options c))) /\
    Route.torn_down (Route.calls (Wire.served is_url browser (Page.options c))) = true /\
    Page.screenshot
      (Page.handleScreenshot (Wire.env_of is_url browser now_id now_timestamp setItem) c) =
      Some (Route.data_uri (Page.format (Page.options c)) buffer) /\
    Page.history
      (Page.handleScreenshot (Wire.env_of is_url browser now_id now_timestamp setItem) c) =
      Page.mkHistoryItem (Page.toString now_id) (Page.url (Page.options c)) now_timestamp
        (Route.data_uri (Page.format (Page.options c)) buffer)
      :: Page.slice 0 9 (Page.history c).
Proof.
  intros Hu A N.
  destruct (served_when_nothing_is_rejected is_url browser (Page.options c) A N)
    as (buffer & I & T & S).
  exists buffer. split; [exact I|]. split; [exact T|].
  set (env := Wire.env_of is_url browser now_id now_timestamp setItem).
  assert (Hf : Page.fetch env (Page.options c) =
               Page.json_data
                 (Route.success_true (Route.data_uri (Page.format (Page.options c)) buffer)))
    by (cbn; rewrite S; reflexivity).
  clear S.
  run_handler env c; try contradiction; try discriminate Hf;
    injection Hf as ->; split; reflexivity.
Qed.

Lemma capture_end_to_end_witness :
  let c := Page.setOptions Page.example_options (Page.mount (Page.initial None)) in
  let env := Wire.env_of Route.has_http_scheme Route.cooperative 1700000000000
               1700000000000 (fun _ => None) in
  Page.screenshot (Page.handleScreenshot env c) = Some "data:image/png;base64,iVBO" /\
  Page.history (Page.handleScreenshot env c) = [Page.example_item 1700000000000].
Proof.
  intros c env.
  assert (A : Wire.acceptable Route.has_http_scheme (Page.options c))
    by (unfold Wire.acceptable; cbn; repeat split; discriminate).
  assert (U : Page.url (Page.options c) <> "") by discriminate.
  destruct (capture_end_to_end Route.has_http_scheme Route.cooperative 1700000000000
              1700000000000 (fun _ => None) c U A cooperative_never_rejects)
    as (buffer & _ & _ & _ & _).
  split; reflexivity.
Defined.

(** X29: end to end, options the schema does not accept (the width
    slider, for one, goes below 100) cost no browser launch and change
    nothing on the page: one request is sent, the route makes no browser
    call, and the page shows the failure toast with preview, history and
    storage as before. *)
Theorem unacceptable_options_fail_quietly is_url browser now_id now_timestamp setItem c :
  Page.url (Page.options c) <> "" ->
  ~ Wire.acceptable is_url (Page.options c) ->
  Route.calls (Wire.served is_url browser (Page.options c)) = [] /\
  Page.requests
    (Page.handleScreenshot (Wire.env_of is_url browser now_id now_timestamp setItem) c) =
    Page.requests c ++ [Page.options c] /\
  Page.toasts
    (Page.handleScreenshot (Wire.env_of is_url browser now_id now_timestamp setItem) c) =
    Page.toasts c ++ [Page.toast_error "Failed to capture screenshot"] /\
  Page.screenshot
    (Page.handleScreenshot (Wire.env_of is_url browser now_id now_timestamp setItem) c) =
    Page.screenshot c /\
  Page.history
    (Page.handleScreenshot (Wire.env_of is_url browser now_id now_timestamp setItem) c) =
    Page.history c /\
  Page.localStorage
    (Page.handleScreenshot (Wire.env_of is_url browser now_id now_timestamp setItem) c) =
    Page.localStorage c.
Proof.
  intros Hu NA.
  destruct (Route.screenshotSchema_parse is_url (Wire.JSON_of_options (Page.options c)))
    as [v|issue] eqn:P.
  - contradiction NA. exact (proj1 (parses_acceptable is_url _ v P)).
  - pose proof (rejected_before_browser is_url browser _ issue P) as R.
    fold (Wire.served is_url browser (Page.options c)) in R.
    split; [rewrite R; reflexivity|].
    set (env := Wire.env_of is_url browser now_id now_timestamp setItem).
    assert (Hf : Page.fetch env (Page.options c) =
                 Page.json_data (Route.success_false "Failed to capture screenshot"))
      by (cbn; rewrite R; reflexivity).
    run_handler env c; try contradiction; try discriminate Hf; repeat split.
Qed.

Lemma unacceptable_options_fail_quietly_witness :
  let o := Page.with_resolution 50 720 Page.example_options in
  let c := Page.setOptions o (Page.mount (Page.initial (Some Page.ten_items))) in
  let env := Wire.env_of Route.has_http_scheme Route.cooperative 1700000000000
               1700000000000 (fun _ => None) in
  Route.calls (Wire.served Route.has_http_scheme Route.cooperative o) = [] /\
  Page.toasts (Page.handleScreenshot env c) =
    [Page.toast_error "Failed to capture screenshot"] /\
  Page.history (Page.handleScreenshot env c) = Page.ten_items.
Proof.
  intros o c env.
  assert (NA : ~ Wire.acceptable Route.has_http_scheme (Page.options c)).
  { intros (_ & W & _). revert W. cbn. unfold Qle. cbn. lia. }
  assert (U : Page.url (Page.options c) <> "") by discriminate.
  destruct (unacceptable_options_fail_quietly Route.has_http_scheme Route.cooperative
              1700000000000 1700000000000 (fun _ => None) c U NA)
    as (C & _ & T & _ & H & _).
  split; [exact C|]. split; [exact T | exact H].
Defined.

End EndToEnd.
